(** * Linux Function App Slot resource: a shallow embedding of
    [internal/services/appservice/linux_function_app_slot_resource.go]

    The four lifecycle operations (Create, Read, Update, Delete) and the
    app-settings flattener [unpackLinuxFunctionAppSettings] are embedded as
    computations in a small logging monad: every callee that yields a Go
    [error] leaves an event in the log, and a computation ends with a value,
    a returned error, one of the two framework signals, or a Go panic.

    Go values are embedded as follows: a nilable pointer or map is an
    [option]; [map[string]string] is a [gmap string string]; a map that the
    code ranges over is the list of its entries in visiting order; [int] is
    [Z]; the pair [(value, err)] a callee returns is a Rocq pair whose second
    component is [option error]. *)

From Stdlib Require Import ZArith Ascii.
From stdpp Require Import base option list strings gmap.

Local Open Scope string_scope.
Local Open Scope Z_scope.

(** ** Errors, events, outcomes *)

(** A Go [error] value: produced by a callee, or built by
    [fmt.Errorf(format, ..., cause)]; a nil cause is [None]. *)
#[warnings="-register-all"] Inductive error : Type :=
| ErrorNew (msg : string)
| Errorf (format : string) (cause : option error).

(** The callees of the resource whose signature has an [error] result. *)
Inductive call : Type :=
| Decode | Encode | ResourceDataSet
| ParseFunctionAppID | ParseFunctionAppSlotID | ParseServicePlanID
| ParseAppServiceEnvironmentID
| Get | ServicePlanGet | AseGet | GetSlot | CheckNameAvailability
| ExpandSiteConfig | ExpandIdentity | FlattenSiteConfig | FlattenIdentity
| CreateOrUpdateSlot | WaitForCompletionRef | FutureResult
| UpdateBackupConfigurationSlot | DeleteBackupConfigurationSlot
| UpdateAuthSettingsSlot | UpdateConnectionStringsSlot
| UpdateDiagnosticLogsConfigSlot | UpdateConfigurationSlot
| ListApplicationSettingsSlot | ListApplicationSettings
| ListConnectionStringsSlot | ListPublishingCredentialsSlot
| GetAuthSettingsSlot | GetBackupConfigurationSlot
| GetDiagnosticLogsConfigurationSlot | GetConfigurationSlot
| ServicePlanInfoForApp | DeleteSlot
| Atoi | DecodeFunctionAppDockerFxString.

Global Instance call_eq_dec : EqDecision call.
Proof. solve_decision. Defined.

Record event : Type := Ev { ev_call : call; ev_err : option error }.

Inductive panic : Type := NilMapWrite | NilDereference | IndexOutOfRange.

(** How a computation ends. For an operation, [Ok tt] is [return nil];
    [MarkedAsGone] and [RequiresImport] stand for returning the result of
    [metadata.MarkAsGone(id)] and of [metadata.ResourceRequiresImport(..)]. *)
Inductive result (A : Type) : Type :=
| Ok (a : A)
| Err (e : error)
| MarkedAsGone
| RequiresImport (resourceType : string)
| Panics (p : panic).
Arguments Ok {A} a.
Arguments Err {A} e.
Arguments MarkedAsGone {A}.
Arguments RequiresImport {A} resourceType.
Arguments Panics {A} p.

(** The monad: an outcome and the events logged, oldest first. *)
Definition M (A : Type) : Type := result A * list event.

Definition ret {A} (a : A) : M A := (Ok a, []).

Definition bind {A B} (m : M A) (k : A → M B) : M B :=
  match m with
  | (Ok a, l) => let '(r, l') := k a in (r, (l ++ l')%list)
  | (Err e, l) => (Err e, l)
  | (MarkedAsGone, l) => (MarkedAsGone, l)
  | (RequiresImport t, l) => (RequiresImport t, l)
  | (Panics p, l) => (Panics p, l)
  end.

Notation "'let*' x ':=' m 'in' k" := (bind m (fun x => k))
  (at level 10, x pattern, m at level 99, k at level 200,
   format "'[v' 'let*'  x  ':='  m  'in' '/' k ']'").
Notation "m ';;' k" := (bind m (fun _ => k))
  (at level 100, k at level 200, right associativity).

Definition outcome {A} (m : M A) : result A := fst m.
Definition events {A} (m : M A) : list event := snd m.

(** [return e] with a non-nil error, and a run-time panic. *)
Definition fail {A} (e : error) : M A := (Err e, []).
Definition throw {A} (p : panic) : M A := (Panics p, []).

(** [v, err := f(..)]: the callee's pair, with the event logged. *)
Definition invoke {A} (c : call) (r : A * option error) : M (A * option error) :=
  (Ok r, [Ev c r.2]).

(** [v, err := f(..); if err != nil { return fmt.Errorf(format, .., err) }] *)
Definition try {A} (c : call) (r : A * option error) (format : string) : M A :=
  let* (v, err) := invoke c r in
  match err with
  | Some e => fail (Errorf format (Some e))
  | None => ret v
  end.

(** [v, err := f(..); if err != nil { return err }] *)
Definition try_bare {A} (c : call) (r : A * option error) : M A :=
  let* (v, err) := invoke c r in
  match err with
  | Some e => fail e
  | None => ret v
  end.

(** [*p] on a nilable pointer, and [l[0]] on a slice. *)
Definition deref {A} (p : option A) : M A :=
  match p with Some a => ret a | None => throw NilDereference end.

Definition index0 {A} (l : list A) : M A :=
  match l with a :: _ => ret a | [] => throw IndexOutOfRange end.

(** [m[k] = v] on a possibly nil Go map. *)
Definition mapassign (m : option (gmap string string)) (k v : string)
  : M (option (gmap string string)) :=
  match m with
  | Some g => ret (Some (<[k := v]> g))
  | None => throw NilMapWrite
  end.

(** [_, present := m[k]]: reading a nil map is allowed. *)
Definition present (m : option (gmap string string)) (k : string) : bool :=
  match m with
  | Some g => bool_decide (is_Some (g !! k))
  | None => false
  end.

(** [m[k]] as an optional entry. *)
Definition entry (m : option (gmap string string)) (k : string) : option string :=
  match m with Some g => g !! k | None => None end.

(** The calls a computation issued. *)
Definition calls {A} (m : M A) : list call := ev_call <$> events m.

(** ** Go library functions used by the resource *)

(** [strings.HasPrefix], [strings.TrimPrefix], [strings.TrimSuffix]. *)
Definition HasPrefix (s p : string) : bool := String.prefix p s.

Definition TrimPrefix (s p : string) : string :=
  if HasPrefix s p
  then String.substring (String.length p) (String.length s - String.length p) s
  else s.

Definition HasSuffix (s p : string) : bool :=
  (String.length p <=? String.length s)%nat &&
  bool_decide (String.substring (String.length s - String.length p)
                                (String.length p) s = p).

Definition TrimSuffix (s p : string) : string :=
  if HasSuffix s p
  then String.substring 0 (String.length s - String.length p) s
  else s.

(** [strconv.Atoi] on a 64-bit platform: an optional sign, then decimal
    digits. A syntax error yields 0; a value out of range yields the nearest
    bound; both come with a non-nil error. The scan stops at the first byte
    that is no digit and at the first overflow of the unsigned
    accumulator, whichever comes first. *)
Definition digit_of (c : ascii) : option Z :=
  let n := Z.of_N (N_of_ascii c) in
  if (48 <=? n) && (n <=? 57) then Some (n - 48) else None.

Inductive scan : Type := Digits (n : Z) | Syntax | Range.

Fixpoint ParseUint (s : string) (acc : Z) : scan :=
  match s with
  | EmptyString => Digits acc
  | String c r =>
      match digit_of c with
      | None => Syntax
      | Some d =>
          if 10 * acc + d >? 2 ^ 64 - 1 then Range else ParseUint r (10 * acc + d)
      end
  end.

Definition ErrSyntax : error := ErrorNew "invalid syntax".
Definition ErrRange : error := ErrorNew "value out of range".

Definition strconv_Atoi (s : string) : Z * option error :=
  let '(neg, body) :=
    match s with
    | String "-"%char r => (true, r)
    | String "+"%char r => (false, r)
    | _ => (false, s)
    end in
  match body with
  | EmptyString => (0, Some ErrSyntax)
  | _ =>
      match ParseUint body 0 with
      | Syntax => (0, Some ErrSyntax)
      | Range => (if neg then - 2 ^ 63 else 2 ^ 63 - 1, Some ErrRange)
      | Digits n =>
          if neg
          then if n >? 2 ^ 63 then (- 2 ^ 63, Some ErrRange) else (- n, None)
          else if n >=? 2 ^ 63 then (2 ^ 63 - 1, Some ErrRange) else (n, None)
      end
  end.

(** ** Types of the packages the resource imports

    The structs of [helpers], [web] and the framework are not part of this
    file's source; the fields that the resource reads or writes are spelled
    out below, and what remains of each struct is an opaque component. *)
Class Foreign : Type := {
  helpers_AuthSettings : Type;
  helpers_Backup : Type;
  helpers_ConnectionString : Type;
  helpers_SiteCredential : Type;
  helpers_FunctionAppAppServiceLogs : Type;
  (** fields of [helpers.ApplicationStackDocker] besides the registry ones,
      and their zero value *)
  DockerRest : Type;
  DockerRest_zero : DockerRest;
  (** fields of [helpers.ApplicationStackLinuxFunctionApp] besides
      [CustomHandler] and [Docker], and their zero value *)
  StackRest : Type;
  StackRest_zero : StackRest;
  (** the other fields of [helpers.SiteConfigLinuxFunctionAppSlot] *)
  SiteConfigRest : Type;
  (** [web] structs passed through untouched *)
  web_Response : Type;
  web_Response_zero : web_Response;
  web_ManagedServiceIdentity : Type;
  web_SiteAuthSettingsProperties : Type;
  web_BackupRequestProperties : Type;
  web_ConnStringValueTypePair : Type;
  web_User : Type;
  web_SiteLogsConfig : Type;
  web_SiteConfigRest : Type;
  web_SitePropertiesRest : Type;
  web_SitePropertiesRest_zero : web_SitePropertiesRest;
  (** the raw value of [metadata.ResourceData.Get("identity")] and the value
      handed to [metadata.ResourceData.Set("identity", ..)] *)
  IdentityConfig : Type;
  IdentityState : Type;
}.

Section Resource.
Context `{Foreign}.

(** *** Identifiers of package [parse] *)
Record FunctionAppId : Type := {
  fa_SubscriptionId : string; fa_ResourceGroup : string; fa_SiteName : string }.
Record FunctionAppSlotId : Type := {
  SubscriptionId : string; ResourceGroup : string; SiteName : string;
  SlotName : string }.
Record ServicePlanId : Type := {
  sp_SubscriptionId : string; sp_ResourceGroup : string;
  ServerfarmName : string }.
Record AppServiceEnvironmentId : Type := {
  ase_SubscriptionId : string; ase_ResourceGroup : string;
  HostingEnvironmentName : string }.

Definition NewFunctionAppSlotID (sub rg site slot : string) : FunctionAppSlotId :=
  {| SubscriptionId := sub; ResourceGroup := rg; SiteName := site; SlotName := slot |}.
Definition NewFunctionAppID (sub rg site : string) : FunctionAppId :=
  {| fa_SubscriptionId := sub; fa_ResourceGroup := rg; fa_SiteName := site |}.

(** *** Schema-side structs of package [helpers] *)
Record ApplicationStackDocker : Type := {
  RegistryURL : string; RegistryUsername : string; RegistryPassword : string;
  Docker_rest : DockerRest }.

Record ApplicationStackLinuxFunctionApp : Type := {
  CustomHandler : bool;
  Docker : list ApplicationStackDocker;
  Stack_rest : StackRest }.

Record SiteConfigLinuxFunctionAppSlot : Type := {
  ApplicationStack : list ApplicationStackLinuxFunctionApp;
  AppServiceLogs : list helpers_FunctionAppAppServiceLogs;
  AppInsightsInstrumentationKey : string;
  AppInsightsConnectionString : string;
  HealthCheckEvictionTime : Z;
  LinuxFxVersion : string;
  SiteConfig_rest : SiteConfigRest }.

(** *** Wire structs of package [web] *)
Record web_NameValuePair : Type := { nv_Name : option string; nv_Value : option string }.

Record web_SiteConfig : Type := {
  sc_AppSettings : option (list web_NameValuePair);
  sc_LinuxFxVersion : option string;
  sc_rest : web_SiteConfigRest }.

Record web_SiteProperties : Type := {
  p_ServerFarmID : option string;
  p_Enabled : option bool;
  p_HTTPSOnly : option bool;
  p_SiteConfig : option web_SiteConfig;
  p_ClientCertEnabled : option bool;
  p_ClientCertMode : string;
  p_DailyMemoryTimeQuota : option Z;
  p_KeyVaultReferenceIdentity : option string;
  p_CustomDomainVerificationID : option string;
  p_DefaultHostName : option string;
  p_rest : web_SitePropertiesRest }.

(** [web.Site] embeds [*SiteProperties]: a promoted field such as
    [functionApp.Enabled] dereferences [site_SiteProperties]. *)
Record web_Site : Type := {
  site_Response : web_Response;
  site_Location : option string;
  site_Tags : option (gmap string (option string));
  site_Kind : option string;
  site_Identity : option web_ManagedServiceIdentity;
  site_SiteProperties : option web_SiteProperties }.

Record web_AppServicePlan : Type := {
  plan_SkuTier : option (option string);
  (** [Sku] then [Sku.Tier], both nilable *)
  plan_HostingEnvironmentProfile : option (option string)
  (** [HostingEnvironmentProfile] then its [ID], both nilable *) }.

Record web_AppServiceEnvironmentResource : Type := {
  aser_DNSSuffix : option (option string)
  (** [AppServiceEnvironment] then its [DNSSuffix], both nilable *) }.

Record web_ResourceNameAvailabilityRequest : Type := {
  req_Name : option string; req_IsFqdn : option bool }.

Record web_ResourceNameAvailability : Type := {
  NameAvailable : option bool; Message : option string }.

Record web_StringDictionary : Type := {
  (** [Properties map[string]*string]: [None] is the nil map, otherwise the
      entries in the order the [range] loop visits them *)
  sd_Properties : option (list (string * option string)) }.

Record web_BackupRequest : Type := {
  br_Response : web_Response;
  br_BackupRequestProperties : option web_BackupRequestProperties }.

Record web_SiteAuthSettings : Type := {
  as_Response : web_Response;
  as_SiteAuthSettingsProperties : option web_SiteAuthSettingsProperties }.

Record web_ConnectionStringDictionary : Type := {
  cs_Properties : option (gmap string (option web_ConnStringValueTypePair)) }.

Record web_SiteConfigResource : Type := { scr_SiteConfig : option web_SiteConfig }.

(** *** The resource's model *)
Record LinuxFunctionAppSlotModel : Type := {
  Name : string;
  FunctionAppID : string;
  StorageAccountName : string;
  StorageAccountKey : string;
  StorageUsesMSI : bool;
  StorageKeyVaultSecretID : string;
  AppSettings : option (gmap string string);
  AuthSettings : list helpers_AuthSettings;
  Backup : list helpers_Backup;
  BuiltinLogging : bool;
  ClientCertEnabled : bool;
  ClientCertMode : string;
  ConnectionStrings : list helpers_ConnectionString;
  DailyMemoryTimeQuota : Z;
  Enabled : bool;
  FunctionExtensionsVersion : string;
  ForceDisableContentShare : bool;
  HttpsOnly : bool;
  KeyVaultReferenceIdentityID : string;
  SiteConfig : list SiteConfigLinuxFunctionAppSlot;
  Tags : option (gmap string string);
  CustomDomainVerificationId : string;
  DefaultHostname : string;
  Kind : string;
  OutboundIPAddresses : string;
  OutboundIPAddressList : list string;
  PossibleOutboundIPAddresses : string;
  PossibleOutboundIPAddressList : list string;
  SiteCredentials : list helpers_SiteCredential }.

(** Field updates [m.F = v]. *)
Definition with_StorageAccountName (v : string) (m : LinuxFunctionAppSlotModel) : LinuxFunctionAppSlotModel :=
  {| Name := Name m; FunctionAppID := FunctionAppID m; StorageAccountName := v;
     StorageAccountKey := StorageAccountKey m; StorageUsesMSI := StorageUsesMSI m;
     StorageKeyVaultSecretID := StorageKeyVaultSecretID m;
     AppSettings := AppSettings m; AuthSettings := AuthSettings m; Backup := Backup m;
     BuiltinLogging := BuiltinLogging m; ClientCertEnabled := ClientCertEnabled m;
     ClientCertMode := ClientCertMode m; ConnectionStrings := ConnectionStrings m;
     DailyMemoryTimeQuota := DailyMemoryTimeQuota m; Enabled := Enabled m;
     FunctionExtensionsVersion := FunctionExtensionsVersion m;
     ForceDisableContentShare := ForceDisableContentShare m; HttpsOnly := HttpsOnly m;
     KeyVaultReferenceIdentityID := KeyVaultReferenceIdentityID m;
     SiteConfig := SiteConfig m; Tags := Tags m;
     CustomDomainVerificationId := CustomDomainVerificationId m;
     DefaultHostname := DefaultHostname m; Kind := Kind m;
     OutboundIPAddresses := OutboundIPAddresses m;
     OutboundIPAddressList := OutboundIPAddressList m;
     PossibleOutboundIPAddresses := PossibleOutboundIPAddresses m;
     PossibleOutboundIPAddressList := PossibleOutboundIPAddressList m;
     SiteCredentials := SiteCredentials m |}.

Definition with_StorageAccountKey (v : string) (m : LinuxFunctionAppSlotModel) : LinuxFunctionAppSlotModel :=
  {| Name := Name m; FunctionAppID := FunctionAppID m;
     StorageAccountName := StorageAccountName m; StorageAccountKey := v;
     StorageUsesMSI := StorageUsesMSI m;
     StorageKeyVaultSecretID := StorageKeyVaultSecretID m;
     AppSettings := AppSettings m; AuthSettings := AuthSettings m; Backup := Backup m;
     BuiltinLogging := BuiltinLogging m; ClientCertEnabled := ClientCertEnabled m;
     ClientCertMode := ClientCertMode m; ConnectionStrings := ConnectionStrings m;
     DailyMemoryTimeQuota := DailyMemoryTimeQuota m; Enabled := Enabled m;
     FunctionExtensionsVersion := FunctionExtensionsVersion m;
     ForceDisableContentShare := ForceDisableContentShare m; HttpsOnly := HttpsOnly m;
     KeyVaultReferenceIdentityID := KeyVaultReferenceIdentityID m;
     SiteConfig := SiteConfig m; Tags := Tags m;
     CustomDomainVerificationId := CustomDomainVerificationId m;
     DefaultHostname := DefaultHostname m; Kind := Kind m;
     OutboundIPAddresses := OutboundIPAddresses m;
     OutboundIPAddressList := OutboundIPAddressList m;
     PossibleOutboundIPAddresses := PossibleOutboundIPAddresses m;
     PossibleOutboundIPAddressList := PossibleOutboundIPAddressList m;
     SiteCredentials := SiteCredentials m |}.

Definition with_StorageUsesMSI (v : bool) (m : LinuxFunctionAppSlotModel) : LinuxFunctionAppSlotModel :=
  {| Name := Name m; FunctionAppID := FunctionAppID m;
     StorageAccountName := StorageAccountName m;
     StorageAccountKey := StorageAccountKey m; StorageUsesMSI := v;
     StorageKeyVaultSecretID := StorageKeyVaultSecretID m;
     AppSettings := AppSettings m; AuthSettings := AuthSettings m; Backup := Backup m;
     BuiltinLogging := BuiltinLogging m; ClientCertEnabled := ClientCertEnabled m;
     ClientCertMode := ClientCertMode m; ConnectionStrings := ConnectionStrings m;
     DailyMemoryTimeQuota := DailyMemoryTimeQuota m; Enabled := Enabled m;
     FunctionExtensionsVersion := FunctionExtensionsVersion m;
     ForceDisableContentShare := ForceDisableContentShare m; HttpsOnly := HttpsOnly m;
     KeyVaultReferenceIdentityID := KeyVaultReferenceIdentityID m;
     SiteConfig := SiteConfig m; Tags := Tags m;
     CustomDomainVerificationId := CustomDomainVerificationId m;
     DefaultHostname := DefaultHostname m; Kind := Kind m;
     OutboundIPAddresses := OutboundIPAddresses m;
     OutboundIPAddressList := OutboundIPAddressList m;
     PossibleOutboundIPAddresses := PossibleOutboundIPAddresses m;
     PossibleOutboundIPAddressList := PossibleOutboundIPAddressList m;
     SiteCredentials := SiteCredentials m |}.

Definition with_StorageKeyVaultSecretID (v : string) (m : LinuxFunctionAppSlotModel) : LinuxFunctionAppSlotModel :=
  {| Name := Name m; FunctionAppID := FunctionAppID m;
     StorageAccountName := StorageAccountName m;
     StorageAccountKey := StorageAccountKey m; StorageUsesMSI := StorageUsesMSI m;
     StorageKeyVaultSecretID := v; AppSettings := AppSettings m;
     AuthSettings := AuthSettings m; Backup := Backup m;
     BuiltinLogging := BuiltinLogging m; ClientCertEnabled := ClientCertEnabled m;
     ClientCertMode := ClientCertMode m; ConnectionStrings := ConnectionStrings m;
     DailyMemoryTimeQuota := DailyMemoryTimeQuota m; Enabled := Enabled m;
     FunctionExtensionsVersion := FunctionExtensionsVersion m;
     ForceDisableContentShare := ForceDisableContentShare m; HttpsOnly := HttpsOnly m;
     KeyVaultReferenceIdentityID := KeyVaultReferenceIdentityID m;
     SiteConfig := SiteConfig m; Tags := Tags m;
     CustomDomainVerificationId := CustomDomainVerificationId m;
     DefaultHostname := DefaultHostname m; Kind := Kind m;
     OutboundIPAddresses := OutboundIPAddresses m;
     OutboundIPAddressList := OutboundIPAddressList m;
     PossibleOutboundIPAddresses := PossibleOutboundIPAddresses m;
     PossibleOutboundIPAddressList := PossibleOutboundIPAddressList m;
     SiteCredentials := SiteCredentials m |}.

Definition with_AppSettings (v : option (gmap string string)) (m : LinuxFunctionAppSlotModel) : LinuxFunctionAppSlotModel :=
  {| Name := Name m; FunctionAppID := FunctionAppID m;
     StorageAccountName := StorageAccountName m;
     StorageAccountKey := StorageAccountKey m; StorageUsesMSI := StorageUsesMSI m;
     StorageKeyVaultSecretID := StorageKeyVaultSecretID m; AppSettings := v;
     AuthSettings := AuthSettings m; Backup := Backup m;
     BuiltinLogging := BuiltinLogging m; ClientCertEnabled := ClientCertEnabled m;
     ClientCertMode := ClientCertMode m; ConnectionStrings := ConnectionStrings m;
     DailyMemoryTimeQuota := DailyMemoryTimeQuota m; Enabled := Enabled m;
     FunctionExtensionsVersion := FunctionExtensionsVersion m;
     ForceDisableContentShare := ForceDisableContentShare m; HttpsOnly := HttpsOnly m;
     KeyVaultReferenceIdentityID := KeyVaultReferenceIdentityID m;
     SiteConfig := SiteConfig m; Tags := Tags m;
     CustomDomainVerificationId := CustomDomainVerificationId m;
     DefaultHostname := DefaultHostname m; Kind := Kind m;
     OutboundIPAddresses := OutboundIPAddresses m;
     OutboundIPAddressList := OutboundIPAddressList m;
     PossibleOutboundIPAddresses := PossibleOutboundIPAddresses m;
     PossibleOutboundIPAddressList := PossibleOutboundIPAddressList m;
     SiteCredentials := SiteCredentials m |}.

Definition with_AuthSettings (v : list helpers_AuthSettings) (m : LinuxFunctionAppSlotModel) : LinuxFunctionAppSlotModel :=
  {| Name := Name m; FunctionAppID := FunctionAppID m;
     StorageAccountName := StorageAccountName m;
     StorageAccountKey := StorageAccountKey m; StorageUsesMSI := StorageUsesMSI m;
     StorageKeyVaultSecretID := StorageKeyVaultSecretID m;
     AppSettings := AppSettings m; AuthSettings := v; Backup := Backup m;
     BuiltinLogging := BuiltinLogging m; ClientCertEnabled := ClientCertEnabled m;
     ClientCertMode := ClientCertMode m; ConnectionStrings := ConnectionStrings m;
     DailyMemoryTimeQuota := DailyMemoryTimeQuota m; Enabled := Enabled m;
     FunctionExtensionsVersion := FunctionExtensionsVersion m;
     ForceDisableContentShare := ForceDisableContentShare m; HttpsOnly := HttpsOnly m;
     KeyVaultReferenceIdentityID := KeyVaultReferenceIdentityID m;
     SiteConfig := SiteConfig m; Tags := Tags m;
     CustomDomainVerificationId := CustomDomainVerificationId m;
     DefaultHostname := DefaultHostname m; Kind := Kind m;
     OutboundIPAddresses := OutboundIPAddresses m;
     OutboundIPAddressList := OutboundIPAddressList m;
     PossibleOutboundIPAddresses := PossibleOutboundIPAddresses m;
     PossibleOutboundIPAddressList := PossibleOutboundIPAddressList m;
     SiteCredentials := SiteCredentials m |}.

Definition with_Backup (v : list helpers_Backup) (m : LinuxFunctionAppSlotModel) : LinuxFunctionAppSlotModel :=
  {| Name := Name m; FunctionAppID := FunctionAppID m;
     StorageAccountName := StorageAccountName m;
     StorageAccountKey := StorageAccountKey m; StorageUsesMSI := StorageUsesMSI m;
     StorageKeyVaultSecretID := StorageKeyVaultSecretID m;
     AppSettings := AppSettings m; AuthSettings := AuthSettings m; Backup := v;
     BuiltinLogging := BuiltinLogging m; ClientCertEnabled := ClientCertEnabled m;
     ClientCertMode := ClientCertMode m; ConnectionStrings := ConnectionStrings m;
     DailyMemoryTimeQuota := DailyMemoryTimeQuota m; Enabled := Enabled m;
     FunctionExtensionsVersion := FunctionExtensionsVersion m;
     ForceDisableContentShare := ForceDisableContentShare m; HttpsOnly := HttpsOnly m;
     KeyVaultReferenceIdentityID := KeyVaultReferenceIdentityID m;
     SiteConfig := SiteConfig m; Tags := Tags m;
     CustomDomainVerificationId := CustomDomainVerificationId m;
     DefaultHostname := DefaultHostname m; Kind := Kind m;
     OutboundIPAddresses := OutboundIPAddresses m;
     OutboundIPAddressList := OutboundIPAddressList m;
     PossibleOutboundIPAddresses := PossibleOutboundIPAddresses m;
     PossibleOutboundIPAddressList := PossibleOutboundIPAddressList m;
     SiteCredentials := SiteCredentials m |}.

Definition with_BuiltinLogging (v : bool) (m : LinuxFunctionAppSlotModel) : LinuxFunctionAppSlotModel :=
  {| Name := Name m; FunctionAppID := FunctionAppID m;
     StorageAccountName := StorageAccountName m;
     StorageAccountKey := StorageAccountKey m; StorageUsesMSI := StorageUsesMSI m;
     StorageKeyVaultSecretID := StorageKeyVaultSecretID m;
     AppSettings := AppSettings m; AuthSettings := AuthSettings m; Backup := Backup m;
     BuiltinLogging := v; ClientCertEnabled := ClientCertEnabled m;
     ClientCertMode := ClientCertMode m; ConnectionStrings := ConnectionStrings m;
     DailyMemoryTimeQuota := DailyMemoryTimeQuota m; Enabled := Enabled m;
     FunctionExtensionsVersion := FunctionExtensionsVersion m;
     ForceDisableContentShare := ForceDisableContentShare m; HttpsOnly := HttpsOnly m;
     KeyVaultReferenceIdentityID := KeyVaultReferenceIdentityID m;
     SiteConfig := SiteConfig m; Tags := Tags m;
     CustomDomainVerificationId := CustomDomainVerificationId m;
     DefaultHostname := DefaultHostname m; Kind := Kind m;
     OutboundIPAddresses := OutboundIPAddresses m;
     OutboundIPAddressList := OutboundIPAddressList m;
     PossibleOutboundIPAddresses := PossibleOutboundIPAddresses m;
     PossibleOutboundIPAddressList := PossibleOutboundIPAddressList m;
     SiteCredentials := SiteCredentials m |}.

Definition with_ClientCertEnabled (v : bool) (m : LinuxFunctionAppSlotModel) : LinuxFunctionAppSlotModel :=
  {| Name := Name m; FunctionAppID := FunctionAppID m;
     StorageAccountName := StorageAccountName m;
     StorageAccountKey := StorageAccountKey m; StorageUsesMSI := StorageUsesMSI m;
     StorageKeyVaultSecretID := StorageKeyVaultSecretID m;
     AppSettings := AppSettings m; AuthSettings := AuthSettings m; Backup := Backup m;
     BuiltinLogging := BuiltinLogging m; ClientCertEnabled := v;
     ClientCertMode := ClientCertMode m; ConnectionStrings := ConnectionStrings m;
     DailyMemoryTimeQuota := DailyMemoryTimeQuota m; Enabled := Enabled m;
     FunctionExtensionsVersion := FunctionExtensionsVersion m;
     ForceDisableContentShare := ForceDisableContentShare m; HttpsOnly := HttpsOnly m;
     KeyVaultReferenceIdentityID := KeyVaultReferenceIdentityID m;
     SiteConfig := SiteConfig m; Tags := Tags m;
     CustomDomainVerificationId := CustomDomainVerificationId m;
     DefaultHostname := DefaultHostname m; Kind := Kind m;
     OutboundIPAddresses := OutboundIPAddresses m;
     OutboundIPAddressList := OutboundIPAddressList m;
     PossibleOutboundIPAddresses := PossibleOutboundIPAddresses m;
     PossibleOutboundIPAddressList := PossibleOutboundIPAddressList m;
     SiteCredentials := SiteCredentials m |}.

Definition with_ConnectionStrings (v : list helpers_ConnectionString) (m : LinuxFunctionAppSlotModel) : LinuxFunctionAppSlotModel :=
  {| Name := Name m; FunctionAppID := FunctionAppID m;
     StorageAccountName := StorageAccountName m;
     StorageAccountKey := StorageAccountKey m; StorageUsesMSI := StorageUsesMSI m;
     StorageKeyVaultSecretID := StorageKeyVaultSecretID m;
     AppSettings := AppSettings m; AuthSettings := AuthSettings m; Backup := Backup m;
     BuiltinLogging := BuiltinLogging m; ClientCertEnabled := ClientCertEnabled m;
     ClientCertMode := ClientCertMode m; ConnectionStrings := v;
     DailyMemoryTimeQuota := DailyMemoryTimeQuota m; Enabled := Enabled m;
     FunctionExtensionsVersion := FunctionExtensionsVersion m;
     ForceDisableContentShare := ForceDisableContentShare m; HttpsOnly := HttpsOnly m;
     KeyVaultReferenceIdentityID := KeyVaultReferenceIdentityID m;
     SiteConfig := SiteConfig m; Tags := Tags m;
     CustomDomainVerificationId := CustomDomainVerificationId m;
     DefaultHostname := DefaultHostname m; Kind := Kind m;
     OutboundIPAddresses := OutboundIPAddresses m;
     OutboundIPAddressList := OutboundIPAddressList m;
     PossibleOutboundIPAddresses := PossibleOutboundIPAddresses m;
     PossibleOutboundIPAddressList := PossibleOutboundIPAddressList m;
     SiteCredentials := SiteCredentials m |}.

Definition with_FunctionExtensionsVersion (v : string) (m : LinuxFunctionAppSlotModel) : LinuxFunctionAppSlotModel :=
  {| Name := Name m; FunctionAppID := FunctionAppID m;
     StorageAccountName := StorageAccountName m;
     StorageAccountKey := StorageAccountKey m; StorageUsesMSI := StorageUsesMSI m;
     StorageKeyVaultSecretID := StorageKeyVaultSecretID m;
     AppSettings := AppSettings m; AuthSettings := AuthSettings m; Backup := Backup m;
     BuiltinLogging := BuiltinLogging m; ClientCertEnabled := ClientCertEnabled m;
     ClientCertMode := ClientCertMode m; ConnectionStrings := ConnectionStrings m;
     DailyMemoryTimeQuota := DailyMemoryTimeQuota m; Enabled := Enabled m;
     FunctionExtensionsVersion := v;
     ForceDisableContentShare := ForceDisableContentShare m; HttpsOnly := HttpsOnly m;
     KeyVaultReferenceIdentityID := KeyVaultReferenceIdentityID m;
     SiteConfig := SiteConfig m; Tags := Tags m;
     CustomDomainVerificationId := CustomDomainVerificationId m;
     DefaultHostname := DefaultHostname m; Kind := Kind m;
     OutboundIPAddresses := OutboundIPAddresses m;
     OutboundIPAddressList := OutboundIPAddressList m;
     PossibleOutboundIPAddresses := PossibleOutboundIPAddresses m;
     PossibleOutboundIPAddressList := PossibleOutboundIPAddressList m;
     SiteCredentials := SiteCredentials m |}.

Definition with_HttpsOnly (v : bool) (m : LinuxFunctionAppSlotModel) : LinuxFunctionAppSlotModel :=
  {| Name := Name m; FunctionAppID := FunctionAppID m;
     StorageAccountName := StorageAccountName m;
     StorageAccountKey := StorageAccountKey m; StorageUsesMSI := StorageUsesMSI m;
     StorageKeyVaultSecretID := StorageKeyVaultSecretID m;
     AppSettings := AppSettings m; AuthSettings := AuthSettings m; Backup := Backup m;
     BuiltinLogging := BuiltinLogging m; ClientCertEnabled := ClientCertEnabled m;
     ClientCertMode := ClientCertMode m; ConnectionStrings := ConnectionStrings m;
     DailyMemoryTimeQuota := DailyMemoryTimeQuota m; Enabled := Enabled m;
     FunctionExtensionsVersion := FunctionExtensionsVersion m;
     ForceDisableContentShare := ForceDisableContentShare m; HttpsOnly := v;
     KeyVaultReferenceIdentityID := KeyVaultReferenceIdentityID m;
     SiteConfig := SiteConfig m; Tags := Tags m;
     CustomDomainVerificationId := CustomDomainVerificationId m;
     DefaultHostname := DefaultHostname m; Kind := Kind m;
     OutboundIPAddresses := OutboundIPAddresses m;
     OutboundIPAddressList := OutboundIPAddressList m;
     PossibleOutboundIPAddresses := PossibleOutboundIPAddresses m;
     PossibleOutboundIPAddressList := PossibleOutboundIPAddressList m;
     SiteCredentials := SiteCredentials m |}.

Definition with_SiteConfig (v : list SiteConfigLinuxFunctionAppSlot) (m : LinuxFunctionAppSlotModel) : LinuxFunctionAppSlotModel :=
  {| Name := Name m; FunctionAppID := FunctionAppID m;
     StorageAccountName := StorageAccountName m;
     StorageAccountKey := StorageAccountKey m; StorageUsesMSI := StorageUsesMSI m;
     StorageKeyVaultSecretID := StorageKeyVaultSecretID m;
     AppSettings := AppSettings m; AuthSettings := AuthSettings m; Backup := Backup m;
     BuiltinLogging := BuiltinLogging m; ClientCertEnabled := ClientCertEnabled m;
     ClientCertMode := ClientCertMode m; ConnectionStrings := ConnectionStrings m;
     DailyMemoryTimeQuota := DailyMemoryTimeQuota m; Enabled := Enabled m;
     FunctionExtensionsVersion := FunctionExtensionsVersion m;
     ForceDisableContentShare := ForceDisableContentShare m; HttpsOnly := HttpsOnly m;
     KeyVaultReferenceIdentityID := KeyVaultReferenceIdentityID m; SiteConfig := v;
     Tags := Tags m; CustomDomainVerificationId := CustomDomainVerificationId m;
     DefaultHostname := DefaultHostname m; Kind := Kind m;
     OutboundIPAddresses := OutboundIPAddresses m;
     OutboundIPAddressList := OutboundIPAddressList m;
     PossibleOutboundIPAddresses := PossibleOutboundIPAddresses m;
     PossibleOutboundIPAddressList := PossibleOutboundIPAddressList m;
     SiteCredentials := SiteCredentials m |}.

Definition with_SiteCredentials (v : list helpers_SiteCredential) (m : LinuxFunctionAppSlotModel) : LinuxFunctionAppSlotModel :=
  {| Name := Name m; FunctionAppID := FunctionAppID m;
     StorageAccountName := StorageAccountName m;
     StorageAccountKey := StorageAccountKey m; StorageUsesMSI := StorageUsesMSI m;
     StorageKeyVaultSecretID := StorageKeyVaultSecretID m;
     AppSettings := AppSettings m; AuthSettings := AuthSettings m; Backup := Backup m;
     BuiltinLogging := BuiltinLogging m; ClientCertEnabled := ClientCertEnabled m;
     ClientCertMode := ClientCertMode m; ConnectionStrings := ConnectionStrings m;
     DailyMemoryTimeQuota := DailyMemoryTimeQuota m; Enabled := Enabled m;
     FunctionExtensionsVersion := FunctionExtensionsVersion m;
     ForceDisableContentShare := ForceDisableContentShare m; HttpsOnly := HttpsOnly m;
     KeyVaultReferenceIdentityID := KeyVaultReferenceIdentityID m;
     SiteConfig := SiteConfig m; Tags := Tags m;
     CustomDomainVerificationId := CustomDomainVerificationId m;
     DefaultHostname := DefaultHostname m; Kind := Kind m;
     OutboundIPAddresses := OutboundIPAddresses m;
     OutboundIPAddressList := OutboundIPAddressList m;
     PossibleOutboundIPAddresses := PossibleOutboundIPAddresses m;
     PossibleOutboundIPAddressList := PossibleOutboundIPAddressList m;
     SiteCredentials := v |}.

Definition with_ApplicationStack (v : list ApplicationStackLinuxFunctionApp) (c : SiteConfigLinuxFunctionAppSlot) : SiteConfigLinuxFunctionAppSlot :=
  {| ApplicationStack := v; AppServiceLogs := AppServiceLogs c;
     AppInsightsInstrumentationKey := AppInsightsInstrumentationKey c;
     AppInsightsConnectionString := AppInsightsConnectionString c;
     HealthCheckEvictionTime := HealthCheckEvictionTime c;
     LinuxFxVersion := LinuxFxVersion c; SiteConfig_rest := SiteConfig_rest c |}.

Definition with_AppServiceLogs (v : list helpers_FunctionAppAppServiceLogs) (c : SiteConfigLinuxFunctionAppSlot) : SiteConfigLinuxFunctionAppSlot :=
  {| ApplicationStack := ApplicationStack c; AppServiceLogs := v;
     AppInsightsInstrumentationKey := AppInsightsInstrumentationKey c;
     AppInsightsConnectionString := AppInsightsConnectionString c;
     HealthCheckEvictionTime := HealthCheckEvictionTime c;
     LinuxFxVersion := LinuxFxVersion c; SiteConfig_rest := SiteConfig_rest c |}.

Definition with_AppInsightsInstrumentationKey (v : string) (c : SiteConfigLinuxFunctionAppSlot) : SiteConfigLinuxFunctionAppSlot :=
  {| ApplicationStack := ApplicationStack c; AppServiceLogs := AppServiceLogs c;
     AppInsightsInstrumentationKey := v;
     AppInsightsConnectionString := AppInsightsConnectionString c;
     HealthCheckEvictionTime := HealthCheckEvictionTime c;
     LinuxFxVersion := LinuxFxVersion c; SiteConfig_rest := SiteConfig_rest c |}.

Definition with_AppInsightsConnectionString (v : string) (c : SiteConfigLinuxFunctionAppSlot) : SiteConfigLinuxFunctionAppSlot :=
  {| ApplicationStack := ApplicationStack c; AppServiceLogs := AppServiceLogs c;
     AppInsightsInstrumentationKey := AppInsightsInstrumentationKey c;
     AppInsightsConnectionString := v;
     HealthCheckEvictionTime := HealthCheckEvictionTime c;
     LinuxFxVersion := LinuxFxVersion c; SiteConfig_rest := SiteConfig_rest c |}.

Definition with_HealthCheckEvictionTime (v : Z) (c : SiteConfigLinuxFunctionAppSlot) : SiteConfigLinuxFunctionAppSlot :=
  {| ApplicationStack := ApplicationStack c; AppServiceLogs := AppServiceLogs c;
     AppInsightsInstrumentationKey := AppInsightsInstrumentationKey c;
     AppInsightsConnectionString := AppInsightsConnectionString c;
     HealthCheckEvictionTime := v; LinuxFxVersion := LinuxFxVersion c;
     SiteConfig_rest := SiteConfig_rest c |}.

Definition with_sc_AppSettings (v : option (list web_NameValuePair)) (c : web_SiteConfig) : web_SiteConfig :=
  {| sc_AppSettings := v; sc_LinuxFxVersion := sc_LinuxFxVersion c;
     sc_rest := sc_rest c |}.

Definition with_sc_LinuxFxVersion (v : option string) (c : web_SiteConfig) : web_SiteConfig :=
  {| sc_AppSettings := sc_AppSettings c; sc_LinuxFxVersion := v;
     sc_rest := sc_rest c |}.

Definition with_p_Enabled (v : option bool) (p : web_SiteProperties) : web_SiteProperties :=
  {| p_ServerFarmID := p_ServerFarmID p; p_Enabled := v; p_HTTPSOnly := p_HTTPSOnly p;
     p_SiteConfig := p_SiteConfig p; p_ClientCertEnabled := p_ClientCertEnabled p;
     p_ClientCertMode := p_ClientCertMode p;
     p_DailyMemoryTimeQuota := p_DailyMemoryTimeQuota p;
     p_KeyVaultReferenceIdentity := p_KeyVaultReferenceIdentity p;
     p_CustomDomainVerificationID := p_CustomDomainVerificationID p;
     p_DefaultHostName := p_DefaultHostName p; p_rest := p_rest p |}.

Definition with_p_HTTPSOnly (v : option bool) (p : web_SiteProperties) : web_SiteProperties :=
  {| p_ServerFarmID := p_ServerFarmID p; p_Enabled := p_Enabled p; p_HTTPSOnly := v;
     p_SiteConfig := p_SiteConfig p; p_ClientCertEnabled := p_ClientCertEnabled p;
     p_ClientCertMode := p_ClientCertMode p;
     p_DailyMemoryTimeQuota := p_DailyMemoryTimeQuota p;
     p_KeyVaultReferenceIdentity := p_KeyVaultReferenceIdentity p;
     p_CustomDomainVerificationID := p_CustomDomainVerificationID p;
     p_DefaultHostName := p_DefaultHostName p; p_rest := p_rest p |}.

Definition with_p_SiteConfig (v : option web_SiteConfig) (p : web_SiteProperties) : web_SiteProperties :=
  {| p_ServerFarmID := p_ServerFarmID p; p_Enabled := p_Enabled p;
     p_HTTPSOnly := p_HTTPSOnly p; p_SiteConfig := v;
     p_ClientCertEnabled := p_ClientCertEnabled p;
     p_ClientCertMode := p_ClientCertMode p;
     p_DailyMemoryTimeQuota := p_DailyMemoryTimeQuota p;
     p_KeyVaultReferenceIdentity := p_KeyVaultReferenceIdentity p;
     p_CustomDomainVerificationID := p_CustomDomainVerificationID p;
     p_DefaultHostName := p_DefaultHostName p; p_rest := p_rest p |}.

Definition with_p_ClientCertEnabled (v : option bool) (p : web_SiteProperties) : web_SiteProperties :=
  {| p_ServerFarmID := p_ServerFarmID p; p_Enabled := p_Enabled p;
     p_HTTPSOnly := p_HTTPSOnly p; p_SiteConfig := p_SiteConfig p;
     p_ClientCertEnabled := v; p_ClientCertMode := p_ClientCertMode p;
     p_DailyMemoryTimeQuota := p_DailyMemoryTimeQuota p;
     p_KeyVaultReferenceIdentity := p_KeyVaultReferenceIdentity p;
     p_CustomDomainVerificationID := p_CustomDomainVerificationID p;
     p_DefaultHostName := p_DefaultHostName p; p_rest := p_rest p |}.

Definition with_p_ClientCertMode (v : string) (p : web_SiteProperties) : web_SiteProperties :=
  {| p_ServerFarmID := p_ServerFarmID p; p_Enabled := p_Enabled p;
     p_HTTPSOnly := p_HTTPSOnly p; p_SiteConfig := p_SiteConfig p;
     p_ClientCertEnabled := p_ClientCertEnabled p; p_ClientCertMode := v;
     p_DailyMemoryTimeQuota := p_DailyMemoryTimeQuota p;
     p_KeyVaultReferenceIdentity := p_KeyVaultReferenceIdentity p;
     p_CustomDomainVerificationID := p_CustomDomainVerificationID p;
     p_DefaultHostName := p_DefaultHostName p; p_rest := p_rest p |}.

Definition with_p_KeyVaultReferenceIdentity (v : option string) (p : web_SiteProperties) : web_SiteProperties :=
  {| p_ServerFarmID := p_ServerFarmID p; p_Enabled := p_Enabled p;
     p_HTTPSOnly := p_HTTPSOnly p; p_SiteConfig := p_SiteConfig p;
     p_ClientCertEnabled := p_ClientCertEnabled p;
     p_ClientCertMode := p_ClientCertMode p;
     p_DailyMemoryTimeQuota := p_DailyMemoryTimeQuota p;
     p_KeyVaultReferenceIdentity := v;
     p_CustomDomainVerificationID := p_CustomDomainVerificationID p;
     p_DefaultHostName := p_DefaultHostName p; p_rest := p_rest p |}.

Definition with_site_Tags (v : option (gmap string (option string))) (s : web_Site) : web_Site :=
  {| site_Response := site_Response s; site_Location := site_Location s;
     site_Tags := v; site_Kind := site_Kind s; site_Identity := site_Identity s;
     site_SiteProperties := site_SiteProperties s |}.

Definition with_site_Identity (v : option web_ManagedServiceIdentity) (s : web_Site) : web_Site :=
  {| site_Response := site_Response s; site_Location := site_Location s;
     site_Tags := site_Tags s; site_Kind := site_Kind s; site_Identity := v;
     site_SiteProperties := site_SiteProperties s |}.

Definition with_site_SiteProperties (v : option web_SiteProperties) (s : web_Site) : web_Site :=
  {| site_Response := site_Response s; site_Location := site_Location s;
     site_Tags := site_Tags s; site_Kind := site_Kind s;
     site_Identity := site_Identity s; site_SiteProperties := v |}.

(** *** The framework: [sdk.ResourceMetaData] as the resource uses it *)
Record ResourceData : Type := {
  Id : string;
  HasChange : string → bool;
  GetOk : string → bool;     (** the [ok] component of [GetOk(key)] *)
  Get_identity : IdentityConfig }.

Record Account : Type := {
  acc_SubscriptionId : string;
  StorageEndpointSuffix : string }.

(** ** Functions of the packages the resource imports

    [helpers], [parse], [utils], [tags] and the identity helpers are not
    part of this file's source: the resource is embedded over any
    implementation of them. A callee that returns a pointer and an error
    yields an [option T] (the pointer) and an [option error]. *)
Class Helpers : Type := {
  ToLower : string → string;                       (** [strings.ToLower] *)
  ResponseWasNotFound : web_Response → bool;       (** [utils.ResponseWasNotFound] *)
  parse_FunctionAppID : string → option FunctionAppId * option error;
  parse_FunctionAppSlotID : string → option FunctionAppSlotId * option error;
  parse_ServicePlanID : string → option ServicePlanId * option error;
  parse_AppServiceEnvironmentID :
    string → option AppServiceEnvironmentId * option error;
  FunctionAppId_ID : FunctionAppId → string;
  ServicePlanId_ID : ServicePlanId → string;
  (** [fmt.Sprintf(helpers.StorageStringFmt, name, key, suffix)] and
      [fmt.Sprintf(helpers.StorageStringFmtKV, secretID)] *)
  StorageStringFmt : string → string → string → string;
  StorageStringFmtKV : string → string;
  ExpandSiteConfigLinuxFunctionAppSlot :
    list SiteConfigLinuxFunctionAppSlot → option web_SiteConfig → ResourceData →
    string → string → bool → option web_SiteConfig * option error;
  EncodeFunctionAppLinuxFxVersion :
    list ApplicationStackLinuxFunctionApp → option string;
  MergeUserAppSettings :
    option (list web_NameValuePair) → option (gmap string string) →
    option (list web_NameValuePair);
  ParseContentSettings :
    web_StringDictionary → option (gmap string string) → option (gmap string string);
  PlanIsElastic : option string → bool;
  expandIdentity : IdentityConfig → option web_ManagedServiceIdentity * option error;
  flattenIdentity : option web_ManagedServiceIdentity → IdentityState * option error;
  tags_FromTypedObject : option (gmap string string) → option (gmap string (option string));
  tags_ToTypedObject : option (gmap string (option string)) → option (gmap string string);
  ExpandBackupConfig : list helpers_Backup → option web_BackupRequest;
  ExpandAuthSettings : list helpers_AuthSettings → option web_SiteAuthSettings;
  ExpandConnectionStrings :
    list helpers_ConnectionString → option web_ConnectionStringDictionary;
  ExpandFunctionAppAppServiceLogs :
    list helpers_FunctionAppAppServiceLogs → web_SiteLogsConfig;
  FlattenSiteConfigLinuxFunctionAppSlot :
    option web_SiteConfig → option SiteConfigLinuxFunctionAppSlot * option error;
  FlattenConnectionStrings :
    web_ConnectionStringDictionary → list helpers_ConnectionString;
  FlattenSiteCredentials : web_User → list helpers_SiteCredential;
  FlattenAuthSettings : web_SiteAuthSettings → list helpers_AuthSettings;
  FlattenBackupConfig : web_BackupRequest → list helpers_Backup;
  FlattenFunctionAppAppServiceLogs :
    web_SiteLogsConfig → list helpers_FunctionAppAppServiceLogs;
  ParseWebJobsStorageString : option string → string * string;
  helpers_DecodeFunctionAppDockerFxString :
    string → ApplicationStackDocker → list ApplicationStackDocker * option error;
}.

Context `{Helpers}.

(** Modelled from the spec: [utils.NormalizeNilableString],
    [utils.NormaliseNilableBool] and [utils.NormaliseNilableInt32] are not
    under src; by the edge-case policy of the field mapper an absent remote
    field maps to the zero value of its type. *)
Definition NormalizeNilableString (v : option string) : string := default "" v.
Definition NormaliseNilableBool (v : option bool) : bool := default false v.
Definition NormaliseNilableInt32 (v : option Z) : Z := default 0 v.

(** ** [unpackLinuxFunctionAppSettings] *)

(** The arms of [switch k]. *)
Inductive arm : Type :=
| FUNCTIONS_EXTENSION_VERSION | WEBSITE_NODE_DEFAULT_VERSION
| WEBSITE_CONTENTAZUREFILECONNECTIONSTRING | WEBSITE_CONTENTSHARE
| WEBSITE_HTTPLOGGING_RETENTION_DAYS | FUNCTIONS_WORKER_RUNTIME
| DOCKER_REGISTRY_SERVER_URL | DOCKER_REGISTRY_SERVER_USERNAME
| DOCKER_REGISTRY_SERVER_PASSWORD | APPINSIGHTS_INSTRUMENTATIONKEY
| APPLICATIONINSIGHTS_CONNECTION_STRING | AzureWebJobsStorage
| AzureWebJobsDashboard | WEBSITE_HEALTHCHECK_MAXPINGFAILURES
| AzureWebJobsStorage__accountName | AzureWebJobsDashboard__accountName
| WEBSITE_RUN_FROM_PACKAGE | default_arm.

Definition arms : list (string * arm) :=
  [ ("FUNCTIONS_EXTENSION_VERSION", FUNCTIONS_EXTENSION_VERSION);
    ("WEBSITE_NODE_DEFAULT_VERSION", WEBSITE_NODE_DEFAULT_VERSION);
    ("WEBSITE_CONTENTAZUREFILECONNECTIONSTRING", WEBSITE_CONTENTAZUREFILECONNECTIONSTRING);
    ("WEBSITE_CONTENTSHARE", WEBSITE_CONTENTSHARE);
    ("WEBSITE_HTTPLOGGING_RETENTION_DAYS", WEBSITE_HTTPLOGGING_RETENTION_DAYS);
    ("FUNCTIONS_WORKER_RUNTIME", FUNCTIONS_WORKER_RUNTIME);
    ("DOCKER_REGISTRY_SERVER_URL", DOCKER_REGISTRY_SERVER_URL);
    ("DOCKER_REGISTRY_SERVER_USERNAME", DOCKER_REGISTRY_SERVER_USERNAME);
    ("DOCKER_REGISTRY_SERVER_PASSWORD", DOCKER_REGISTRY_SERVER_PASSWORD);
    ("APPINSIGHTS_INSTRUMENTATIONKEY", APPINSIGHTS_INSTRUMENTATIONKEY);
    ("APPLICATIONINSIGHTS_CONNECTION_STRING", APPLICATIONINSIGHTS_CONNECTION_STRING);
    ("AzureWebJobsStorage", AzureWebJobsStorage);
    ("AzureWebJobsDashboard", AzureWebJobsDashboard);
    ("WEBSITE_HEALTHCHECK_MAXPINGFAILURES", WEBSITE_HEALTHCHECK_MAXPINGFAILURES);
    ("AzureWebJobsStorage__accountName", AzureWebJobsStorage__accountName);
    ("AzureWebJobsDashboard__accountName", AzureWebJobsDashboard__accountName);
    ("WEBSITE_RUN_FROM_PACKAGE", WEBSITE_RUN_FROM_PACKAGE) ].

Fixpoint lookup_arm (k : string) (l : list (string * arm)) : arm :=
  match l with
  | [] => default_arm
  | (n, a) :: r => if String.eqb k n then a else lookup_arm k r
  end.

Definition switch (k : string) : arm := lookup_arm k arms.

(** [m.SiteConfig[0].F = v]: panics on an empty slice. *)
Definition update_SiteConfig0
    (f : SiteConfigLinuxFunctionAppSlot → SiteConfigLinuxFunctionAppSlot)
    (m : LinuxFunctionAppSlotModel) : M LinuxFunctionAppSlotModel :=
  match SiteConfig m with
  | c :: r => ret (with_SiteConfig (f c :: r) m)
  | [] => throw IndexOutOfRange
  end.

(** What the loop carries: the receiver, [appSettings] and [dockerSettings]. *)
Record unpacking : Type := {
  u_m : LinuxFunctionAppSlotModel;
  u_appSettings : gmap string string;
  u_dockerSettings : ApplicationStackDocker }.

Definition keep (rd : ResourceData) (k : string) (v : option string) (u : unpacking)
  : unpacking :=
  if GetOk rd ("app_settings." ++ k)
  then {| u_m := u_m u;
          u_appSettings := <[k := NormalizeNilableString v]> (u_appSettings u);
          u_dockerSettings := u_dockerSettings u |}
  else u.

Definition on_m (f : LinuxFunctionAppSlotModel → LinuxFunctionAppSlotModel)
    (u : unpacking) : unpacking :=
  {| u_m := f (u_m u); u_appSettings := u_appSettings u;
     u_dockerSettings := u_dockerSettings u |}.

Definition on_docker (f : ApplicationStackDocker → ApplicationStackDocker)
    (u : unpacking) : unpacking :=
  {| u_m := u_m u; u_appSettings := u_appSettings u;
     u_dockerSettings := f (u_dockerSettings u) |}.

(** One iteration of [for k, v := range input.Properties]. *)
Definition unpack_step (rd : ResourceData) (u : unpacking)
    (kv : string * option string) : M unpacking :=
  let '(k, v) := kv in
  match switch k with
  | FUNCTIONS_EXTENSION_VERSION =>
      ret (on_m (with_FunctionExtensionsVersion (NormalizeNilableString v)) u)
  | WEBSITE_NODE_DEFAULT_VERSION => ret u
  | WEBSITE_CONTENTAZUREFILECONNECTIONSTRING => ret (keep rd k v u)
  | WEBSITE_CONTENTSHARE => ret (keep rd k v u)
  | WEBSITE_HTTPLOGGING_RETENTION_DAYS => ret u
  | FUNCTIONS_WORKER_RUNTIME =>
      let* m :=
        match SiteConfig (u_m u) with
        | c :: r =>
            match ApplicationStack c with
            | [] =>
                let* s := deref v in
                if String.eqb s "custom"
                then ret (with_SiteConfig
                            (with_ApplicationStack
                               [ {| CustomHandler := true; Docker := [];
                                    Stack_rest := StackRest_zero |} ] c :: r)
                            (u_m u))
                else ret (u_m u)
            | _ :: _ => ret (u_m u)
            end
        | [] => ret (u_m u)
        end in
      ret (keep rd k v (on_m (λ _, m) u))
  | DOCKER_REGISTRY_SERVER_URL =>
      ret (on_docker (λ d, {| RegistryURL := NormalizeNilableString v;
                              RegistryUsername := RegistryUsername d;
                              RegistryPassword := RegistryPassword d;
                              Docker_rest := Docker_rest d |}) u)
  | DOCKER_REGISTRY_SERVER_USERNAME =>
      ret (on_docker (λ d, {| RegistryURL := RegistryURL d;
                              RegistryUsername := NormalizeNilableString v;
                              RegistryPassword := RegistryPassword d;
                              Docker_rest := Docker_rest d |}) u)
  | DOCKER_REGISTRY_SERVER_PASSWORD =>
      ret (on_docker (λ d, {| RegistryURL := RegistryURL d;
                              RegistryUsername := RegistryUsername d;
                              RegistryPassword := NormalizeNilableString v;
                              Docker_rest := Docker_rest d |}) u)
  | APPINSIGHTS_INSTRUMENTATIONKEY =>
      let* m := update_SiteConfig0
                  (with_AppInsightsInstrumentationKey (NormalizeNilableString v))
                  (u_m u) in
      ret (on_m (λ _, m) u)
  | APPLICATIONINSIGHTS_CONNECTION_STRING =>
      let* m := update_SiteConfig0
                  (with_AppInsightsConnectionString (NormalizeNilableString v))
                  (u_m u) in
      ret (on_m (λ _, m) u)
  | AzureWebJobsStorage =>
      match v with
      | Some s =>
          if HasPrefix s "@Microsoft.KeyVault"
          then
            let trimmed :=
              TrimPrefix (TrimSuffix s ")") "@Microsoft.KeyVault(SecretUri=" in
            ret (on_m (with_StorageKeyVaultSecretID trimmed) u)
          else
            let '(name, key) := ParseWebJobsStorageString v in
            ret (on_m (λ m, with_StorageAccountKey key (with_StorageAccountName name m)) u)
      | None =>
          let '(name, key) := ParseWebJobsStorageString v in
          ret (on_m (λ m, with_StorageAccountKey key (with_StorageAccountName name m)) u)
      end
  | AzureWebJobsDashboard => ret (on_m (with_BuiltinLogging true) u)
  | WEBSITE_HEALTHCHECK_MAXPINGFAILURES =>
      let* (i, _) := invoke Atoi (strconv_Atoi (NormalizeNilableString v)) in
      let* m := update_SiteConfig0 (with_HealthCheckEvictionTime i) (u_m u) in
      ret (on_m (λ _, m) u)
  | AzureWebJobsStorage__accountName =>
      ret (on_m (λ m, with_StorageAccountName (NormalizeNilableString v)
                        (with_StorageUsesMSI true m)) u)
  | AzureWebJobsDashboard__accountName => ret (on_m (with_BuiltinLogging true) u)
  | WEBSITE_RUN_FROM_PACKAGE => ret (keep rd k v u)
  | default_arm =>
      ret {| u_m := u_m u;
             u_appSettings := <[k := NormalizeNilableString v]> (u_appSettings u);
             u_dockerSettings := u_dockerSettings u |}
  end.

Fixpoint range (rd : ResourceData) (u : unpacking)
    (entries : list (string * option string)) : M unpacking :=
  match entries with
  | [] => ret u
  | kv :: rest => let* u' := unpack_step rd u kv in range rd u' rest
  end.

Definition unpackLinuxFunctionAppSettings (m : LinuxFunctionAppSlotModel)
    (input : web_StringDictionary) (rd : ResourceData)
  : M LinuxFunctionAppSlotModel :=
  match sd_Properties input with
  | None => ret m
  | Some entries =>
      let* u := range rd
                  {| u_m := with_BuiltinLogging false m;
                     u_appSettings := ∅;
                     u_dockerSettings :=
                       {| RegistryURL := ""; RegistryUsername := "";
                          RegistryPassword := ""; Docker_rest := DockerRest_zero |} |}
                  entries in
      let* m :=
        if negb (String.eqb (RegistryURL (u_dockerSettings u)) "")
        then
          let* c := index0 (SiteConfig (u_m u)) in
          let* (docker, _) :=
            invoke DecodeFunctionAppDockerFxString
              (helpers_DecodeFunctionAppDockerFxString (LinuxFxVersion c)
                 (u_dockerSettings u)) in
          update_SiteConfig0
            (with_ApplicationStack
               [ {| CustomHandler := false; Docker := docker;
                    Stack_rest := StackRest_zero |} ])
            (u_m u)
        else ret (u_m u) in
      ret (with_AppSettings (Some (u_appSettings u)) m)
  end.

(** ** Read *)

(** What the remote API and the framework answer during one Read. *)
Record ReadWorld : Type := {
  r_ResourceData : ResourceData;
  r_GetSlot : web_Site * option error;
  r_ListApplicationSettingsSlot : web_StringDictionary * option error;
  r_ListConnectionStringsSlot : web_ConnectionStringDictionary * option error;
  r_ListPublishingCredentialsSlot : option error;
  r_WaitForCompletionRef : option error;
  r_FutureResult : web_User * option error;
  r_GetAuthSettingsSlot : web_SiteAuthSettings * option error;
  r_GetBackupConfigurationSlot : web_BackupRequest * option error;
  r_GetDiagnosticLogsConfigurationSlot : web_SiteLogsConfig * option error;
  r_GetConfigurationSlot : web_SiteConfigResource * option error;
  r_Encode : LinuxFunctionAppSlotModel → option error;
  r_Set_identity : IdentityState → option error }.

(** [client.GetSlot] and the not-found test on the primary resource. *)
Definition Read_primary (w : ReadWorld) : M (FunctionAppSlotId * web_Site) :=
  let* idp := try_bare ParseFunctionAppSlotID
                (parse_FunctionAppSlotID (Id (r_ResourceData w))) in
  let* id := deref idp in
  let* (functionApp, err) := invoke GetSlot (r_GetSlot w) in
  match err with
  | Some e =>
      if ResponseWasNotFound (site_Response functionApp)
      then (MarkedAsGone, [])
      else fail (Errorf "reading Linux %s: %+v" (Some e))
  | None => ret (id, functionApp)
  end.

(** [client.GetBackupConfigurationSlot]: a not-found answer is let through. *)
Definition Read_backup (w : ReadWorld) : M web_BackupRequest :=
  let* (backup, err) := invoke GetBackupConfigurationSlot (r_GetBackupConfigurationSlot w) in
  match err with
  | Some e =>
      if negb (ResponseWasNotFound (br_Response backup))
      then fail (Errorf "reading Backup Settings for Linux %s: %+v" (Some e))
      else ret backup
  | None => ret backup
  end.

(** The dependent fetches and the state handed to [metadata.Encode]. *)
Definition Read_state (w : ReadWorld) (id : FunctionAppSlotId) (functionApp : web_Site)
  : M LinuxFunctionAppSlotModel :=
  let* props :=
    match site_SiteProperties functionApp with
    | None => fail (Errorf "reading properties of Linux %s" None)
    | Some props => ret props
    end in
  let* appSettingsResp :=
    try ListApplicationSettingsSlot (r_ListApplicationSettingsSlot w)
      "reading App Settings for Linux %s: %+v" in
  let* connectionStrings :=
    try ListConnectionStringsSlot (r_ListConnectionStringsSlot w)
      "reading Connection String information for Linux %s: %+v" in
  try ListPublishingCredentialsSlot (tt, r_ListPublishingCredentialsSlot w)
    "listing Site Publishing Credential information for Linux %s: %+v";;
  try WaitForCompletionRef (tt, r_WaitForCompletionRef w)
    "waiting for Site Publishing Credential information for Linux %s: %+v";;
  let* siteCredentials :=
    try FutureResult (r_FutureResult w)
      "reading Site Publishing Credential information for Linux %s: %+v" in
  let* auth :=
    try GetAuthSettingsSlot (r_GetAuthSettingsSlot w)
      "reading Auth Settings for Linux %s: %+v" in
  let* backup := Read_backup w in
  let* logs :=
    try GetDiagnosticLogsConfigurationSlot (r_GetDiagnosticLogsConfigurationSlot w)
      "reading logs configuration for Linux %s: %+v" in
  let state :=
    {| Name := SlotName id;
       FunctionAppID :=
         FunctionAppId_ID
           (NewFunctionAppID (SubscriptionId id) (ResourceGroup id) (SiteName id));
       StorageAccountName := ""; StorageAccountKey := ""; StorageUsesMSI := false;
       StorageKeyVaultSecretID := ""; AppSettings := None; AuthSettings := [];
       Backup := []; BuiltinLogging := false; ClientCertEnabled := false;
       ClientCertMode := p_ClientCertMode props; ConnectionStrings := [];
       DailyMemoryTimeQuota := NormaliseNilableInt32 (p_DailyMemoryTimeQuota props);
       Enabled := NormaliseNilableBool (p_Enabled props);
       FunctionExtensionsVersion := ""; ForceDisableContentShare := false;
       HttpsOnly := false;
       KeyVaultReferenceIdentityID :=
         NormalizeNilableString (p_KeyVaultReferenceIdentity props);
       SiteConfig := [];
       Tags := tags_ToTypedObject (site_Tags functionApp);
       CustomDomainVerificationId :=
         NormalizeNilableString (p_CustomDomainVerificationID props);
       DefaultHostname := NormalizeNilableString (p_DefaultHostName props);
       Kind := NormalizeNilableString (site_Kind functionApp);
       OutboundIPAddresses := ""; OutboundIPAddressList := [];
       PossibleOutboundIPAddresses := ""; PossibleOutboundIPAddressList := [];
       SiteCredentials := [] |} in
  let* configResp :=
    try GetConfigurationSlot (r_GetConfigurationSlot w)
      "making Read request on AzureRM Function App Configuration %q: %+v" in
  let* siteConfigp :=
    try FlattenSiteConfig
      (FlattenSiteConfigLinuxFunctionAppSlot (scr_SiteConfig configResp))
      "reading Site Config for Linux %s: %+v" in
  let* siteConfig := deref siteConfigp in
  let state := with_SiteConfig [siteConfig] state in
  let* state := unpackLinuxFunctionAppSettings state appSettingsResp (r_ResourceData w) in
  let state := with_ConnectionStrings (FlattenConnectionStrings connectionStrings) state in
  let state := with_SiteCredentials (FlattenSiteCredentials siteCredentials) state in
  let state := with_AuthSettings (FlattenAuthSettings auth) state in
  let state := with_Backup (FlattenBackupConfig backup) state in
  let* state :=
    update_SiteConfig0 (with_AppServiceLogs (FlattenFunctionAppAppServiceLogs logs))
      state in
  let state := with_HttpsOnly (NormaliseNilableBool (p_HTTPSOnly props)) state in
  let state :=
    with_ClientCertEnabled (NormaliseNilableBool (p_ClientCertEnabled props)) state in
  try Encode (tt, r_Encode w state) "encoding: %+v";;
  let* flattenedIdentity :=
    try FlattenIdentity (flattenIdentity (site_Identity functionApp))
      "flattening `identity`: %+v" in
  try ResourceDataSet (tt, r_Set_identity w flattenedIdentity)
    "setting `identity`: %+v";;
  ret state.

(** [Ok state] is [return nil] after [metadata.Encode(&state)]. *)
Definition Read (w : ReadWorld) : M LinuxFunctionAppSlotModel :=
  let* (id, functionApp) := Read_primary w in
  Read_state w id functionApp.

(** ** Delete *)
Record DeleteWorld : Type := {
  d_ResourceData : ResourceData;
  d_DeleteSlot : option error }.

Definition Delete (w : DeleteWorld) : M unit :=
  let* idp := try_bare ParseFunctionAppSlotID
                (parse_FunctionAppSlotID (Id (d_ResourceData w))) in
  let* id := deref idp in
  try DeleteSlot (tt, d_DeleteSlot w) "deleting Linux %s: %+v".

(** ** Create *)

Definition ResourceType : string := "azurerm_linux_function_app_slot".

(** [int32(x)] on a Go [int]. *)
Definition int32 (x : Z) : Z := (x + 2 ^ 31) `mod` 2 ^ 32 - 2 ^ 31.

Record CreateWorld : Type := {
  c_ResourceData : ResourceData;
  c_Account : Account;
  c_Decode : LinuxFunctionAppSlotModel * option error;
  c_Get : web_Site * option error;
  c_ServicePlanGet : web_AppServicePlan * option error;
  c_GetSlot : web_Site * option error;
  c_AseGet : web_AppServiceEnvironmentResource * option error;
  c_CheckNameAvailability :
    web_ResourceNameAvailabilityRequest → web_ResourceNameAvailability * option error;
  c_uuid : string;                          (** [uuid.New().String()] *)
  c_CreateOrUpdateSlot : web_Site → option error;
  c_WaitForCompletionRef : option error;
  c_CreateOrUpdateSlot' : web_Site → option error;   (** the second request *)
  c_WaitForCompletionRef' : option error;
  c_UpdateBackupConfigurationSlot : web_BackupRequest → option error;
  c_UpdateAuthSettingsSlot : web_SiteAuthSettings → option error;
  c_UpdateConnectionStringsSlot : web_ConnectionStringDictionary → option error;
  c_UpdateDiagnosticLogsConfigSlot : web_SiteLogsConfig → option error }.

(** The [switch] on the lower-cased plan tier. *)
Definition sendContentSettings_for (tier : string) (forceDisable : bool) : bool :=
  let t := ToLower tier in
  if String.eqb t "dynamic" then false
  else if String.eqb t "elastic" then negb forceDisable
  else if String.eqb t "basic" then false
  else if String.eqb t "standard" then false
  else if String.eqb t "premiumv2" || String.eqb t "premiumv3" then false
  else negb forceDisable.

(** What the first part of Create establishes. *)
Record planned : Type := {
  pl_functionAppSlot : LinuxFunctionAppSlotModel;
  pl_id : FunctionAppSlotId;
  pl_Location : string;
  pl_servicePlanId : ServicePlanId;
  pl_servicePlan : web_AppServicePlan;
  pl_sendContentSettings : bool }.

(** Decoding, the parent app, its service plan and the plan tier. *)
Definition Create_plan (w : CreateWorld) : M planned :=
  let* functionAppSlot := try_bare Decode (c_Decode w) in
  let* functionAppIdp :=
    try_bare ParseFunctionAppID (parse_FunctionAppID (FunctionAppID functionAppSlot)) in
  let* functionAppId := deref functionAppIdp in
  let id := NewFunctionAppSlotID (acc_SubscriptionId (c_Account w))
              (fa_ResourceGroup functionAppId) (fa_SiteName functionAppId)
              (Name functionAppSlot) in
  let* functionApp := try Get (c_Get w) "retrieving parent Linux %s: %+v" in
  let* location :=
    match site_Location functionApp with
    | None => fail (Errorf "could not determine location for %s: %+v" None)
    | Some l => ret l
    end in
  let* serverFarmID :=
    match site_SiteProperties functionApp with
    | Some props =>
        match p_ServerFarmID props with
        | Some f => ret f
        | None => fail (Errorf "could not determine Service Plan ID for %s: %+v" None)
        end
    | None => fail (Errorf "could not determine Service Plan ID for %s: %+v" None)
    end in
  let* servicePlanIdp :=
    try_bare ParseServicePlanID (parse_ServicePlanID serverFarmID) in
  let* servicePlanId := deref servicePlanIdp in
  let* servicePlan := try ServicePlanGet (c_ServicePlanGet w) "reading %s: %+v" in
  match plan_SkuTier servicePlan with
  | Some (Some tier) =>
      ret {| pl_functionAppSlot := functionAppSlot; pl_id := id;
             pl_Location := location; pl_servicePlanId := servicePlanId;
             pl_servicePlan := servicePlan;
             pl_sendContentSettings :=
               sendContentSettings_for tier (ForceDisableContentShare functionAppSlot) |}
  | _ => fail (Errorf "determining plan type for Linux %s: %v" None)
  end.

(** The existence check. *)
Definition Create_existing (w : CreateWorld) : M unit :=
  let* (existing, err) := invoke GetSlot (c_GetSlot w) in
  let notFound := ResponseWasNotFound (site_Response existing) in
  (match err with
   | Some e =>
       if negb notFound
       then fail (Errorf "checking for presence of existing Linux %s: %+v" (Some e))
       else ret tt
   | None => ret tt
   end);;
  if negb notFound then (RequiresImport ResourceType, []) else ret tt.

(** The name-availability check, with the App Service Environment suffix. *)
Definition Create_availability (w : CreateWorld) (p : planned) : M unit :=
  let functionAppSlot := pl_functionAppSlot p in
  let id := pl_id p in
  let* availabilityRequest :=
    match plan_HostingEnvironmentProfile (pl_servicePlan p) with
    | Some ase =>
        let* nameSuffix :=
          match ase with
          | Some aseID =>
              let* (aseIdp, err) :=
                invoke ParseAppServiceEnvironmentID
                  (parse_AppServiceEnvironmentID aseID) in
              let* aseId := deref aseIdp in
              let nameSuffix :=
                HostingEnvironmentName aseId ++ "." ++ "appserviceenvironment.net" in
              match err with
              | Some _ => ret nameSuffix
              | None =>
                  let* (existingASE, err) := invoke AseGet (c_AseGet w) in
                  match err with
                  | Some _ => ret nameSuffix
                  | None =>
                      match aser_DNSSuffix existingASE with
                      | Some (Some suffix) =>
                          if negb (String.eqb suffix "") then ret suffix
                          else ret nameSuffix
                      | _ => ret nameSuffix
                      end
                  end
              end
          | None => ret "appserviceenvironment.net"
          end in
        ret {| req_Name := Some (Name functionAppSlot ++ "." ++ nameSuffix);
               req_IsFqdn := Some true |}
    | None =>
        ret {| req_Name := Some (SiteName id ++ "-" ++ SlotName id);
               req_IsFqdn := None |}
    end in
  let* checkName :=
    try CheckNameAvailability (c_CheckNameAvailability w availabilityRequest)
      "checking name availability for Linux %s: %+v" in
  match NameAvailable checkName with
  | Some false =>
      let* _ := deref (Message checkName) in
      fail (Errorf "the Site Name %q failed the availability check: %+v" None)
  | _ => ret tt
  end.

(** [storageString], computed alike by Create and Update. *)
Definition storageString_of (m : LinuxFunctionAppSlotModel) (suffix : string) : string :=
  if negb (StorageUsesMSI m)
  then
    if negb (String.eqb (StorageKeyVaultSecretID m) "")
    then StorageStringFmtKV (StorageKeyVaultSecretID m)
    else StorageStringFmt (StorageAccountName m) (StorageAccountKey m) suffix
  else StorageAccountName m.

(** [make(map[string]string)] when the map is nil. *)
Definition make_if_nil (m : option (gmap string string)) : option (gmap string string) :=
  match m with None => Some ∅ | Some g => Some g end.

(** The app settings Create synthesizes into [functionAppSlot.AppSettings]. *)
Definition Create_appSettings (functionAppSlot : LinuxFunctionAppSlotModel)
    (storageString : string) (sendContentSettings : bool) (uuid : string)
  : M (option (gmap string string)) :=
  let appSettings := AppSettings functionAppSlot in
  let* appSettings :=
    if BuiltinLogging functionAppSlot
    then
      let appSettings := make_if_nil appSettings in
      if negb (StorageUsesMSI functionAppSlot)
      then mapassign appSettings "AzureWebJobsDashboard" storageString
      else mapassign appSettings "AzureWebJobsDashboard__accountName"
             (StorageAccountName functionAppSlot)
    else ret appSettings in
  if sendContentSettings
  then
    let appSettings := make_if_nil appSettings in
    let suffix := String.substring 0 4 uuid in
    let* appSettings :=
      if negb (present appSettings "WEBSITE_CONTENTSHARE")
      then mapassign appSettings "WEBSITE_CONTENTSHARE"
             (ToLower (Name functionAppSlot) ++ "-" ++ suffix)
      else ret appSettings in
    if negb (present appSettings "WEBSITE_CONTENTAZUREFILECONNECTIONSTRING")
    then mapassign appSettings "WEBSITE_CONTENTAZUREFILECONNECTIONSTRING" storageString
    else ret appSettings
  else ret appSettings.

(** The site envelope and the two create requests. *)
Definition Create_site (w : CreateWorld) (p : planned) : M LinuxFunctionAppSlotModel :=
  let functionAppSlot := pl_functionAppSlot p in
  let storageString :=
    storageString_of functionAppSlot (StorageEndpointSuffix (c_Account w)) in
  let* siteConfigp :=
    try ExpandSiteConfig
      (ExpandSiteConfigLinuxFunctionAppSlot (SiteConfig functionAppSlot) None
         (c_ResourceData w) (FunctionExtensionsVersion functionAppSlot)
         storageString (StorageUsesMSI functionAppSlot))
      "expanding site_config for Linux %s: %+v" in
  let* appSettings :=
    Create_appSettings functionAppSlot storageString (pl_sendContentSettings p)
      (c_uuid w) in
  let functionAppSlot := with_AppSettings appSettings functionAppSlot in
  let* siteConfig0 := index0 (SiteConfig functionAppSlot) in
  let* siteConfig := deref siteConfigp in
  let siteConfig :=
    with_sc_LinuxFxVersion
      (EncodeFunctionAppLinuxFxVersion (ApplicationStack siteConfig0)) siteConfig in
  let siteConfig :=
    with_sc_AppSettings
      (MergeUserAppSettings (sc_AppSettings siteConfig) (AppSettings functionAppSlot))
      siteConfig in
  let* expandedIdentity :=
    try ExpandIdentity (expandIdentity (Get_identity (c_ResourceData w)))
      "expanding `identity`: %+v" in
  let siteEnvelope :=
    {| site_Response := web_Response_zero;
       site_Location := Some (pl_Location p);
       site_Tags := tags_FromTypedObject (Tags functionAppSlot);
       site_Kind := Some "functionapp,linux";
       site_Identity := expandedIdentity;
       site_SiteProperties :=
         Some {| p_ServerFarmID := Some (ServicePlanId_ID (pl_servicePlanId p));
                 p_Enabled := Some (Enabled functionAppSlot);
                 p_HTTPSOnly := Some (HttpsOnly functionAppSlot);
                 p_SiteConfig := Some siteConfig;
                 p_ClientCertEnabled := Some (ClientCertEnabled functionAppSlot);
                 p_ClientCertMode := ClientCertMode functionAppSlot;
                 p_DailyMemoryTimeQuota :=
                   Some (int32 (DailyMemoryTimeQuota functionAppSlot));
                 p_KeyVaultReferenceIdentity :=
                   if negb (String.eqb (KeyVaultReferenceIdentityID functionAppSlot) "")
                   then Some (KeyVaultReferenceIdentityID functionAppSlot)
                   else None;
                 p_CustomDomainVerificationID := None;
                 p_DefaultHostName := None;
                 p_rest := web_SitePropertiesRest_zero |} |} in
  try CreateOrUpdateSlot (tt, c_CreateOrUpdateSlot w siteEnvelope)
    "creating Linux %s: %+v";;
  try WaitForCompletionRef (tt, c_WaitForCompletionRef w)
    "waiting for creation of Linux %s: %+v";;
  try CreateOrUpdateSlot (tt, c_CreateOrUpdateSlot' w siteEnvelope)
    "updating properties of Linux %s: %+v";;
  try WaitForCompletionRef (tt, c_WaitForCompletionRef' w)
    "waiting for creation of Linux %s: %+v";;
  ret functionAppSlot.

(** The dependent calls of Create. *)
Definition Create_dependents (w : CreateWorld) (functionAppSlot : LinuxFunctionAppSlotModel)
  : M unit :=
  let* backupConfig := deref (ExpandBackupConfig (Backup functionAppSlot)) in
  (match br_BackupRequestProperties backupConfig with
   | Some _ =>
       try UpdateBackupConfigurationSlot
         (tt, c_UpdateBackupConfigurationSlot w backupConfig)
         "adding Backup Settings for Linux %s: %+v"
   | None => ret tt
   end);;
  let* auth := deref (ExpandAuthSettings (AuthSettings functionAppSlot)) in
  (match as_SiteAuthSettingsProperties auth with
   | Some _ =>
       try UpdateAuthSettingsSlot (tt, c_UpdateAuthSettingsSlot w auth)
         "setting Authorisation Settings for Linux %s: %+v"
   | None => ret tt
   end);;
  let* connectionStrings :=
    deref (ExpandConnectionStrings (ConnectionStrings functionAppSlot)) in
  (match cs_Properties connectionStrings with
   | Some _ =>
       try UpdateConnectionStringsSlot
         (tt, c_UpdateConnectionStringsSlot w connectionStrings)
         "setting Connection Strings for Linux %s: %+v"
   | None => ret tt
   end);;
  if GetOk (c_ResourceData w) "site_config.0.app_service_logs"
  then
    let* siteConfig0 := index0 (SiteConfig functionAppSlot) in
    let appServiceLogs := ExpandFunctionAppAppServiceLogs (AppServiceLogs siteConfig0) in
    try UpdateDiagnosticLogsConfigSlot
      (tt, c_UpdateDiagnosticLogsConfigSlot w appServiceLogs)
      "updating App Service Log Settings for %s: %+v"
  else ret tt.

Definition Create (w : CreateWorld) : M unit :=
  let* p := Create_plan w in
  Create_existing w;;
  Create_availability w p;;
  let* functionAppSlot := Create_site w p in
  Create_dependents w functionAppSlot.

(** ** Update *)

Record UpdateWorld : Type := {
  upd_ResourceData : ResourceData;
  upd_Account : Account;
  upd_Decode : LinuxFunctionAppSlotModel * option error;
  upd_GetSlot : web_Site * option error;
  (** [helpers.ServicePlanInfoForApp]: the first result is discarded *)
  upd_ServicePlanInfoForApp : option string * option error;
  upd_ListApplicationSettings : web_StringDictionary * option error;
  upd_CreateOrUpdateSlot : web_Site → option error;
  upd_WaitForCompletionRef : option error;
  upd_UpdateConfigurationSlot : web_SiteConfigResource → option error;
  upd_UpdateConnectionStringsSlot : web_ConnectionStringDictionary → option error;
  upd_UpdateAuthSettingsSlot : web_SiteAuthSettings → option error;
  upd_DeleteBackupConfigurationSlot : option error;
  upd_UpdateBackupConfigurationSlot : web_BackupRequest → option error;
  upd_UpdateDiagnosticLogsConfigSlot : web_SiteLogsConfig → option error }.

(** [existing.SiteProperties.F = v], also through a promoted field. *)
Definition update_SiteProperties (f : web_SiteProperties → web_SiteProperties)
    (existing : web_Site) : M web_Site :=
  let* props := deref (site_SiteProperties existing) in
  ret (with_site_SiteProperties (Some (f props)) existing).

(** [existing.SiteConfig.F = v]. *)
Definition update_existing_SiteConfig (f : web_SiteConfig → web_SiteConfig)
    (existing : web_Site) : M web_Site :=
  let* props := deref (site_SiteProperties existing) in
  let* siteConfig := deref (p_SiteConfig props) in
  ret (with_site_SiteProperties (Some (with_p_SiteConfig (Some (f siteConfig)) props))
         existing).

Record fetched : Type := {
  f_state : LinuxFunctionAppSlotModel;
  f_existing : web_Site;
  f_planSKU : option string }.

(** The identifier, the decoded state, the remote slot and its plan. *)
Definition Update_fetch (w : UpdateWorld) : M fetched :=
  let* idp := try_bare ParseFunctionAppSlotID
                (parse_FunctionAppSlotID (Id (upd_ResourceData w))) in
  let* state := try Decode (upd_Decode w) "decoding: %+v" in
  let* id := deref idp in
  let* existing := try GetSlot (upd_GetSlot w) "reading Linux %s: %v" in
  let* planSKU := try_bare ServicePlanInfoForApp (upd_ServicePlanInfoForApp w) in
  ret {| f_state := state; f_existing := existing; f_planSKU := planSKU |}.

(** The fields of the site applied under their change flags. *)
Definition Update_changes (w : UpdateWorld) (state : LinuxFunctionAppSlotModel)
    (existing : web_Site) : M web_Site :=
  let rd := upd_ResourceData w in
  let* existing :=
    if HasChange rd "enabled"
    then update_SiteProperties (with_p_Enabled (Some (Enabled state))) existing
    else ret existing in
  let* existing :=
    if HasChange rd "https_only"
    then update_SiteProperties (with_p_HTTPSOnly (Some (HttpsOnly state))) existing
    else ret existing in
  let* existing :=
    if HasChange rd "client_certificate_enabled"
    then update_SiteProperties
           (with_p_ClientCertEnabled (Some (ClientCertEnabled state))) existing
    else ret existing in
  let* existing :=
    if HasChange rd "client_certificate_mode"
    then update_SiteProperties (with_p_ClientCertMode (ClientCertMode state)) existing
    else ret existing in
  let* existing :=
    if HasChange rd "identity"
    then
      let* expandedIdentity :=
        try ExpandIdentity (expandIdentity (Get_identity rd))
          "expanding `identity`: %+v" in
      ret (with_site_Identity expandedIdentity existing)
    else ret existing in
  let* existing :=
    if HasChange rd "key_vault_reference_identity_id"
    then update_SiteProperties
           (with_p_KeyVaultReferenceIdentity (Some (KeyVaultReferenceIdentityID state)))
           existing
    else ret existing in
  if HasChange rd "tags"
  then ret (with_site_Tags (tags_FromTypedObject (Tags state)) existing)
  else ret existing.

Record expanded : Type := {
  x_appSettings : option (gmap string string);   (** [state.AppSettings] *)
  x_siteConfig : option web_SiteConfig;
  x_err : option error }.

(** The content settings, the site-config expansion and the built-in
    logging key. *)
Definition Update_appSettings (w : UpdateWorld) (state : LinuxFunctionAppSlotModel)
    (existing : web_Site) (sendContentSettings : bool) (storageString : string)
  : M expanded :=
  let appSettings := AppSettings state in
  let* appSettings :=
    if sendContentSettings
    then
      let* appSettingsResp :=
        try ListApplicationSettings (upd_ListApplicationSettings w)
          "reading App Settings for Windows %s: %+v" in
      ret (ParseContentSettings appSettingsResp (make_if_nil appSettings))
    else ret appSettings in
  let* props := deref (site_SiteProperties existing) in
  let* (siteConfig, err) :=
    invoke ExpandSiteConfig
      (ExpandSiteConfigLinuxFunctionAppSlot (SiteConfig state) (p_SiteConfig props)
         (upd_ResourceData w) (FunctionExtensionsVersion state) storageString
         (StorageUsesMSI state)) in
  let* appSettings :=
    if BuiltinLogging state
    then
      let appSettings :=
        match appSettings with
        | None => if negb (StorageUsesMSI state) then Some ∅ else None
        | Some g => Some g
        end in
      if negb (StorageUsesMSI state)
      then mapassign appSettings "AzureWebJobsDashboard" storageString
      else mapassign appSettings "AzureWebJobsDashboard__accountName"
             (StorageAccountName state)
    else ret appSettings in
  ret {| x_appSettings := appSettings; x_siteConfig := siteConfig; x_err := err |}.

(** The full-document update of the site and of its configuration. Once
    [existing.SiteConfig = siteConfig] has run, both names point to one
    struct, so the later writes through [existing.SiteConfig] are seen by the
    configuration update as well. *)
Definition Update_primary (w : UpdateWorld) (state : LinuxFunctionAppSlotModel)
    (existing : web_Site) (x : expanded) : M unit :=
  let rd := upd_ResourceData w in
  let* existing :=
    if HasChange rd "site_config"
    then
      match x_err x with
      | Some e => fail (Errorf "expanding Site Config for Linux %s: %+v" (Some e))
      | None => update_SiteProperties (with_p_SiteConfig (x_siteConfig x)) existing
      end
    else ret existing in
  let* existing :=
    if HasChange rd "site_config.0.application_stack"
    then
      let* siteConfig0 := index0 (SiteConfig state) in
      update_existing_SiteConfig
        (with_sc_LinuxFxVersion
           (EncodeFunctionAppLinuxFxVersion (ApplicationStack siteConfig0)))
        existing
    else ret existing in
  let* siteConfig := deref (x_siteConfig x) in
  let* existing :=
    update_existing_SiteConfig
      (with_sc_AppSettings
         (MergeUserAppSettings (sc_AppSettings siteConfig) (x_appSettings x)))
      existing in
  try CreateOrUpdateSlot (tt, upd_CreateOrUpdateSlot w existing)
    "updating Linux %s: %+v";;
  try WaitForCompletionRef (tt, upd_WaitForCompletionRef w)
    "waiting to update %s: %+v";;
  let siteConfig :=
    if HasChange rd "site_config"
    then site_SiteProperties existing ≫= p_SiteConfig
    else x_siteConfig x in
  try UpdateConfigurationSlot
    (tt, upd_UpdateConfigurationSlot w {| scr_SiteConfig := siteConfig |})
    "updating Site Config for Linux %s: %+v".

(** The dependent calls of Update, each under its change flag. *)
Definition Update_connection_string (w : UpdateWorld) (state : LinuxFunctionAppSlotModel)
  : M unit :=
  if HasChange (upd_ResourceData w) "connection_string"
  then
    let* connectionStringUpdate :=
      deref (ExpandConnectionStrings (ConnectionStrings state)) in
    let connectionStringUpdate :=
      match cs_Properties connectionStringUpdate with
      | None => {| cs_Properties := Some ∅ |}
      | Some _ => connectionStringUpdate
      end in
    try UpdateConnectionStringsSlot
      (tt, upd_UpdateConnectionStringsSlot w connectionStringUpdate)
      "updating Connection Strings for Linux %s: %+v"
  else ret tt.

Definition Update_auth_settings (w : UpdateWorld) (state : LinuxFunctionAppSlotModel)
  : M unit :=
  if HasChange (upd_ResourceData w) "auth_settings"
  then
    let* authUpdate := deref (ExpandAuthSettings (AuthSettings state)) in
    try UpdateAuthSettingsSlot (tt, upd_UpdateAuthSettingsSlot w authUpdate)
      "updating Auth Settings for Linux %s: %+v"
  else ret tt.

Definition Update_backup (w : UpdateWorld) (state : LinuxFunctionAppSlotModel)
  : M unit :=
  if HasChange (upd_ResourceData w) "backup"
  then
    let* backupUpdate := deref (ExpandBackupConfig (Backup state)) in
    match br_BackupRequestProperties backupUpdate with
    | None =>
        try DeleteBackupConfigurationSlot (tt, upd_DeleteBackupConfigurationSlot w)
          "removing Backup Settings for Linux %s: %+v"
    | Some _ =>
        try UpdateBackupConfigurationSlot
          (tt, upd_UpdateBackupConfigurationSlot w backupUpdate)
          "updating Backup Settings for Linux %s: %+v"
    end
  else ret tt.

Definition Update_app_service_logs (w : UpdateWorld) (state : LinuxFunctionAppSlotModel)
  : M unit :=
  if HasChange (upd_ResourceData w) "site_config.0.app_service_logs"
  then
    let* siteConfig0 := index0 (SiteConfig state) in
    let appServiceLogs := ExpandFunctionAppAppServiceLogs (AppServiceLogs siteConfig0) in
    try UpdateDiagnosticLogsConfigSlot
      (tt, upd_UpdateDiagnosticLogsConfigSlot w appServiceLogs)
      "updating App Service Log Settings for %s: %+v"
  else ret tt.

Definition Update (w : UpdateWorld) : M unit :=
  let* f := Update_fetch w in
  let state := f_state f in
  let sendContentSettings := negb (PlanIsElastic (f_planSKU f)) in
  let* existing := Update_changes w state (f_existing f) in
  let storageString := storageString_of state (StorageEndpointSuffix (upd_Account w)) in
  let* x := Update_appSettings w state existing sendContentSettings storageString in
  Update_primary w state existing x;;
  Update_connection_string w state;;
  Update_auth_settings w state;;
  Update_backup w state;;
  Update_app_service_logs w state.

(** Whether the flattener keeps an entry of the wire under [app_settings]:
    always for a key the [switch] does not name, under four of the named
    keys only when the configuration has the key, never under the others. *)
Definition kept (rd : ResourceData) (k : string) : bool :=
  match switch k with
  | default_arm => true
  | WEBSITE_CONTENTAZUREFILECONNECTIONSTRING | WEBSITE_CONTENTSHARE
  | FUNCTIONS_WORKER_RUNTIME | WEBSITE_RUN_FROM_PACKAGE =>
      GetOk rd ("app_settings." ++ k)
  | _ => false
  end.

(** The effect of one wire entry on the flattened [app_settings]. *)
Definition flatten_entry (rd : ResourceData) (g : gmap string string)
    (kv : string * option string) : gmap string string :=
  if kept rd kv.1 then <[kv.1 := NormalizeNilableString kv.2]> g else g.

(** ** Call sites whose error does not end the operation

    Create goes on after a not-found answer of the existence check and
    after a failure of the App Service Environment lookups; Read goes on
    after a not-found answer of the backup fetch and discards the errors of
    [strconv.Atoi] and of the Docker decoder while flattening; Update looks
    at the error of the site-config expansion only under the [site_config]
    change flag. *)
Definition Create_tolerates (w : CreateWorld) (ev : event) : Prop :=
  ev_call ev = ParseAppServiceEnvironmentID ∨ ev_call ev = AseGet ∨
  (ev_call ev = GetSlot ∧ ResponseWasNotFound (site_Response (c_GetSlot w).1) = true).

Definition Read_tolerates (w : ReadWorld) (ev : event) : Prop :=
  ev_call ev = Atoi ∨ ev_call ev = DecodeFunctionAppDockerFxString ∨
  (ev_call ev = GetBackupConfigurationSlot ∧
   ResponseWasNotFound (br_Response (r_GetBackupConfigurationSlot w).1) = true).

Definition Update_tolerates (ev : event) : Prop := ev_call ev = ExpandSiteConfig.

Definition Delete_tolerates (ev : event) : Prop := False.

End Resource.

Arguments Helpers F : rename, clear implicits.

Local Open Scope list_scope.

(** ** Predicates on computations *)

(** The errors the callees of [m] produced, oldest first. *)
Definition errors {A} (m : M A) : list (call * error) :=
  omap (λ ev, pair (ev_call ev) <$> ev_err ev) (events m).

(** The value of a completed computation. *)
Definition value {A} (r : result A) : option A :=
  match r with Ok a => Some a | _ => None end.

(** [seq l m]: the computation [m] after the events [l]. *)
Definition seq {A} (l : list event) (m : M A) : M A := (outcome m, (l ++ events m)%list).

(** Every call of [m] satisfies [S]. *)
Definition issues {A} (S : call → Prop) (m : M A) : Prop :=
  ∀ c, c ∈ calls m → S c.

(** The result [r] hands the error [e] to the caller: bare, wrapped by
    [fmt.Errorf], or as the mark-as-gone signal. *)
Definition returned {A} (e : error) (r : result A) : Prop :=
  r = Err e ∨ (∃ format, r = Err (Errorf format (Some e))) ∨ r = MarkedAsGone.

(** Every error a callee of [m] produced, unless the event satisfies [T],
    ends [m] on the spot and is returned. *)
Definition faithful {A} (T : event → Prop) (m : M A) : Prop :=
  ∀ pre c e post,
    events m = (pre ++ Ev c (Some e) :: post)%list →
    T (Ev c (Some e)) ∨ (post = [] ∧ returned e (outcome m)).

(** The change flag that guards a dependent call of Update, if any. *)
Definition change_flag (c : call) : option string :=
  match c with
  | UpdateConnectionStringsSlot => Some "connection_string"
  | UpdateAuthSettingsSlot => Some "auth_settings"
  | UpdateBackupConfigurationSlot | DeleteBackupConfigurationSlot => Some "backup"
  | UpdateDiagnosticLogsConfigSlot => Some "site_config.0.app_service_logs"
  | _ => None
  end.

(** ** A concrete implementation of the imported packages

    Used to run the operations on explicit inputs. Responses are HTTP status
    codes, the opaque structs are trivial, identifiers parse when they start
    with a slash. *)
Module Demo.

#[export] Instance foreign : Foreign := {|
  helpers_AuthSettings := unit; helpers_Backup := unit;
  helpers_ConnectionString := unit; helpers_SiteCredential := unit;
  helpers_FunctionAppAppServiceLogs := unit;
  DockerRest := unit; DockerRest_zero := ();
  StackRest := unit; StackRest_zero := ();
  SiteConfigRest := unit;
  web_Response := Z; web_Response_zero := 0;
  web_ManagedServiceIdentity := unit;
  web_SiteAuthSettingsProperties := unit;
  web_BackupRequestProperties := unit;
  web_ConnStringValueTypePair := unit;
  web_User := unit; web_SiteLogsConfig := unit;
  web_SiteConfigRest := unit;
  web_SitePropertiesRest := unit; web_SitePropertiesRest_zero := ();
  IdentityConfig := unit; IdentityState := unit |}.

Definition lower_ascii (c : ascii) : ascii :=
  let n := N_of_ascii c in
  if ((65 <=? n) && (n <=? 90))%N then ascii_of_N (n + 32) else c.

Fixpoint lower (s : string) : string :=
  match s with
  | EmptyString => EmptyString
  | String c r => String (lower_ascii c) (lower r)
  end.

Definition parse_error : error := ErrorNew "parsing the ID".

Definition parse_with {A} (mk : string → A) (s : string) : option A * option error :=
  if HasPrefix s "/" then (Some (mk s), None) else (None, Some parse_error).

Definition wire_SiteConfig : web_SiteConfig :=
  {| sc_AppSettings := None; sc_LinuxFxVersion := None; sc_rest := () |}.

Definition schema_SiteConfig : SiteConfigLinuxFunctionAppSlot :=
  {| ApplicationStack := []; AppServiceLogs := [];
     AppInsightsInstrumentationKey := ""; AppInsightsConnectionString := "";
     HealthCheckEvictionTime := 0; LinuxFxVersion := ""; SiteConfig_rest := () |}.

#[export] Instance helpers : Helpers foreign := {|
  ToLower := lower;
  ResponseWasNotFound := λ status : web_Response, Z.eqb status 404;
  parse_FunctionAppID :=
    parse_with (λ s, {| fa_SubscriptionId := "sub"; fa_ResourceGroup := "rg";
                        fa_SiteName := s |});
  parse_FunctionAppSlotID :=
    parse_with (λ s, {| SubscriptionId := "sub"; ResourceGroup := "rg";
                        SiteName := "app"; SlotName := s |});
  parse_ServicePlanID :=
    parse_with (λ s, {| sp_SubscriptionId := "sub"; sp_ResourceGroup := "rg";
                        ServerfarmName := s |});
  parse_AppServiceEnvironmentID :=
    parse_with (λ s, {| ase_SubscriptionId := "sub"; ase_ResourceGroup := "rg";
                        HostingEnvironmentName := s |});
  FunctionAppId_ID := fa_SiteName;
  ServicePlanId_ID := ServerfarmName;
  StorageStringFmt := λ name key suffix,
    ("AccountName=" ++ name ++ ";AccountKey=" ++ key ++ ";EndpointSuffix=" ++ suffix)%string;
  StorageStringFmtKV := λ secret, ("@Microsoft.KeyVault(SecretUri=" ++ secret ++ ")")%string;
  ExpandSiteConfigLinuxFunctionAppSlot := λ _ _ _ _ _ _, (Some wire_SiteConfig, None);
  EncodeFunctionAppLinuxFxVersion := λ _, Some ""%string;
  MergeUserAppSettings := λ _ user,
    Some (fmap (M:=list)
            (λ kv : string * string, {| nv_Name := Some kv.1; nv_Value := Some kv.2 |})
            (map_to_list (default (∅ : gmap string string) user)));
  ParseContentSettings := λ _ m, m;
  PlanIsElastic := λ sku, match sku with Some s => HasPrefix s "EP" | None => false end;
  expandIdentity := λ _, (None, None);
  flattenIdentity := λ _, ((), None);
  tags_FromTypedObject := λ m, fmap (M:=gmap string) Some <$> m;
  tags_ToTypedObject := λ m, fmap (M:=gmap string) NormalizeNilableString <$> m;
  ExpandBackupConfig := λ l,
    Some {| br_Response := 0;
            br_BackupRequestProperties := match l with [] => None | _ => Some () end |};
  ExpandAuthSettings := λ l,
    Some {| as_Response := 0;
            as_SiteAuthSettingsProperties := match l with [] => None | _ => Some () end |};
  ExpandConnectionStrings := λ l,
    Some {| cs_Properties := match l with [] => None | _ => Some ∅ end |};
  ExpandFunctionAppAppServiceLogs := λ _, ();
  FlattenSiteConfigLinuxFunctionAppSlot := λ _, (Some schema_SiteConfig, None);
  FlattenConnectionStrings := λ _, [];
  FlattenSiteCredentials := λ _, [];
  FlattenAuthSettings := λ a,
    match as_SiteAuthSettingsProperties a with Some _ => [()] | None => [] end;
  FlattenBackupConfig := λ b,
    match br_BackupRequestProperties b with Some _ => [()] | None => [] end;
  FlattenFunctionAppAppServiceLogs := λ _, [];
  ParseWebJobsStorageString := λ _, (""%string, ""%string);
  helpers_DecodeFunctionAppDockerFxString := λ _ _, ([], None) |}.

(** A configuration: storage account [acct1], one [site_config] block. *)
Definition config (usesMSI builtinLogging : bool)
    (appSettings : option (gmap string string)) : LinuxFunctionAppSlotModel :=
  {| Name := "Slot1"; FunctionAppID := "/app"; StorageAccountName := "acct1";
     StorageAccountKey := if usesMSI then "" else "key1";
     StorageUsesMSI := usesMSI; StorageKeyVaultSecretID := "";
     AppSettings := appSettings; AuthSettings := []; Backup := [];
     BuiltinLogging := builtinLogging; ClientCertEnabled := false;
     ClientCertMode := "Optional"; ConnectionStrings := [];
     DailyMemoryTimeQuota := 0; Enabled := true; FunctionExtensionsVersion := "~4";
     ForceDisableContentShare := false; HttpsOnly := false;
     KeyVaultReferenceIdentityID := ""; SiteConfig := [schema_SiteConfig];
     Tags := None; CustomDomainVerificationId := ""; DefaultHostname := "";
     Kind := ""; OutboundIPAddresses := ""; OutboundIPAddressList := [];
     PossibleOutboundIPAddresses := ""; PossibleOutboundIPAddressList := [];
     SiteCredentials := [] |}.

Definition resource_data (changed configured : list string) : ResourceData :=
  {| Id := "/slot1";
     HasChange := λ k, bool_decide (k ∈ changed);
     GetOk := λ k, bool_decide (k ∈ configured);
     Get_identity := () |}.

Definition account : Account :=
  {| acc_SubscriptionId := "sub"; StorageEndpointSuffix := "core.windows.net" |}.

(** The remote slot as the API returns it, with the given status. *)
Definition remote_site (status : Z) : web_Site :=
  {| site_Response := status; site_Location := Some "westeurope";
     site_Tags := None; site_Kind := Some "functionapp,linux";
     site_Identity := None;
     site_SiteProperties :=
       Some {| p_ServerFarmID := Some "/plan"; p_Enabled := Some true;
               p_HTTPSOnly := Some false; p_SiteConfig := Some wire_SiteConfig;
               p_ClientCertEnabled := Some false; p_ClientCertMode := "Optional";
               p_DailyMemoryTimeQuota := Some 0; p_KeyVaultReferenceIdentity := None;
               p_CustomDomainVerificationID := None; p_DefaultHostName := None;
               p_rest := () |} |}.

Definition http_error (status : Z) : error := ErrorNew "the API answered with an error status".

(** An Update in which every call succeeds. *)
Definition update_world (changed : list string) (state : LinuxFunctionAppSlotModel)
    (sku : string) : UpdateWorld :=
  {| upd_ResourceData := resource_data changed [];
     upd_Account := account;
     upd_Decode := (state, None);
     upd_GetSlot := (remote_site 200, None);
     upd_ServicePlanInfoForApp := (Some sku, None);
     upd_ListApplicationSettings := ({| sd_Properties := Some [] |}, None);
     upd_CreateOrUpdateSlot := λ _, None;
     upd_WaitForCompletionRef := None;
     upd_UpdateConfigurationSlot := λ _, None;
     upd_UpdateConnectionStringsSlot := λ _, None;
     upd_UpdateAuthSettingsSlot := λ _, None;
     upd_DeleteBackupConfigurationSlot := None;
     upd_UpdateBackupConfigurationSlot := λ _, None;
     upd_UpdateDiagnosticLogsConfigSlot := λ _, None |}.

(** A Create on the plan tier [tier], where the existence check answers
    with [existing] and the plan sits in the environment [ase]. *)
Definition create_world (state : LinuxFunctionAppSlotModel) (tier : string)
    (existing : Z) (ase : option (option string)) : CreateWorld :=
  {| c_ResourceData := resource_data [] [];
     c_Account := account;
     c_Decode := (state, None);
     c_Get := (remote_site 200, None);
     c_ServicePlanGet :=
       ({| plan_SkuTier := Some (Some tier);
           plan_HostingEnvironmentProfile := ase |}, None);
     c_GetSlot :=
       (remote_site existing,
        if existing =? 200 then None else Some (http_error existing));
     c_AseGet := ({| aser_DNSSuffix := None |}, None);
     c_CheckNameAvailability := λ _,
       ({| NameAvailable := Some true; Message := None |}, None);
     c_uuid := "0f8fad5b-d9cb-469f-a165-70867728950e";
     c_CreateOrUpdateSlot := λ _, None;
     c_WaitForCompletionRef := None;
     c_CreateOrUpdateSlot' := λ _, None;
     c_WaitForCompletionRef' := None;
     c_UpdateBackupConfigurationSlot := λ _, None;
     c_UpdateAuthSettingsSlot := λ _, None;
     c_UpdateConnectionStringsSlot := λ _, None;
     c_UpdateDiagnosticLogsConfigSlot := λ _, None |}.

(** A Read where the primary slot answers with [primary], the auth settings
    with [auth], the backup configuration with [backup], the app settings
    of the slot are [settings] and the configuration has the keys
    [configured]. *)
Definition answer {A} (a : A) (status : Z) : A * option error :=
  (a, if status =? 200 then None else Some (http_error status)).

Definition read_world (primary auth backup : Z)
    (settings : list (string * option string)) (configured : list string) : ReadWorld :=
  {| r_ResourceData := resource_data [] configured;
     r_GetSlot := answer (remote_site primary) primary;
     r_ListApplicationSettingsSlot := ({| sd_Properties := Some settings |}, None);
     r_ListConnectionStringsSlot := ({| cs_Properties := None |}, None);
     r_ListPublishingCredentialsSlot := None;
     r_WaitForCompletionRef := None;
     r_FutureResult := ((), None);
     r_GetAuthSettingsSlot :=
       answer {| as_Response := auth; as_SiteAuthSettingsProperties := None |} auth;
     r_GetBackupConfigurationSlot :=
       answer {| br_Response := backup; br_BackupRequestProperties := None |} backup;
     r_GetDiagnosticLogsConfigurationSlot := ((), None);
     r_GetConfigurationSlot := ({| scr_SiteConfig := Some wire_SiteConfig |}, None);
     r_Encode := λ _, None;
     r_Set_identity := λ _, None |}.

(** Updates on a consumption plan: only [tags] changed; only [backup]
    changed. *)
Definition tags_only_update : UpdateWorld :=
  update_world ["tags"] (config false true None) "Y1".

Definition backup_update : UpdateWorld :=
  update_world ["backup"] (config false true None) "Y1".

(** Creates on a consumption plan: onto a slot that exists already; onto a
    free name. *)
Definition create_on_existing : CreateWorld :=
  create_world (config false true None) "Dynamic" 200 None.

Definition create_fresh : CreateWorld :=
  create_world (config false true None) "Dynamic" 404 None.

(** Reads: the slot is gone; the slot is there but has no backup
    configuration; the auth settings answer not-found. *)
Definition read_gone : ReadWorld := read_world 404 200 200 [] [].
Definition read_without_backup : ReadWorld := read_world 200 200 404 [] [].
Definition read_without_auth : ReadWorld := read_world 200 404 200 [] [].

(** Reads of a slot whose app settings hold a health-check limit that is no
    number; a configured Node version; a custom setting next to the storage
    and dashboard settings. *)
Definition read_unparsable_limit : ReadWorld :=
  read_world 200 200 200 [("WEBSITE_HEALTHCHECK_MAXPINGFAILURES", Some "abc")] [].

Definition node_version : gmap string string :=
  {[ "WEBSITE_NODE_DEFAULT_VERSION" := "14" ]}.

Definition read_node_version : ReadWorld :=
  read_world 200 200 200
    [("WEBSITE_NODE_DEFAULT_VERSION", Some "14")]
    ["app_settings.WEBSITE_NODE_DEFAULT_VERSION"].

Definition custom_settings : web_StringDictionary :=
  {| sd_Properties :=
       Some [("AzureWebJobsDashboard", Some "x"); ("MY_SETTING", Some "v");
             ("WEBSITE_CONTENTSHARE", Some "slot1-0f8f")] |}.

(** The flattener's loop state on entry, for a slot with one [site_config]
    block. *)
Definition unpacking_start : unpacking :=
  {| u_m := config false false None; u_appSettings := ∅;
     u_dockerSettings :=
       {| RegistryURL := ""; RegistryUsername := ""; RegistryPassword := "";
          Docker_rest := () |} |}.

(** Updates and creates that panic. *)
Definition update_nil_app_settings : UpdateWorld :=
  update_world ["tags"] (config true true None) "EP1".

Definition create_in_unparsable_environment : CreateWorld :=
  create_world (config false true None) "Standard" 404 (Some (Some "ase-1")).

(** A configuration with managed identity and built-in logging. *)
Definition managed_identity_config : LinuxFunctionAppSlotModel :=
  config true true None.

End Demo.

(** ** Reasoning about the monad *)
Lemma outcome_seq {C} l (m : M C) : outcome (seq l m) = outcome m.
Proof. done. Qed.

Lemma events_seq {C} l (m : M C) : events (seq l m) = l ++ events m.
Proof. done. Qed.

Lemma calls_seq {C} l (m : M C) : calls (seq l m) = (ev_call <$> l) ++ calls m.
Proof. unfold calls. by rewrite events_seq, fmap_app. Qed.

Section Monad.
Context {A B : Type}.
Implicit Types (m : M A) (k : A → M B) (l : list event).

Lemma bind_ok a l k : bind (Ok a, l) k = seq l (k a).
Proof. unfold bind, seq. by destruct (k a). Qed.

Lemma bind_ret a k : bind (ret a) k = k a.
Proof. unfold ret. rewrite bind_ok. unfold seq. by destruct (k a). Qed.

Lemma bind_fail e k : bind (fail e) k = fail e.
Proof. done. Qed.

Lemma bind_throw p k : bind (throw p) k = throw p.
Proof. done. Qed.

Lemma bind_seq l m k : bind (seq l m) k = seq l (bind m k).
Proof.
  destruct m as [[a|e| |t|p] l']; unfold seq; cbn; try done.
  destruct (k a) as [r l'']. cbn. by rewrite (assoc_L (++)).
Qed.

(** The two ways a [bind] can go. *)
Lemma bind_cases m k :
  (∃ a, outcome m = Ok a ∧ bind m k = seq (events m) (k a)) ∨
  ((∀ a, outcome m ≠ Ok a) ∧ events (bind m k) = events m ∧
   match outcome m with
   | Ok _ => False
   | Err e => outcome (bind m k) = Err e
   | MarkedAsGone => outcome (bind m k) = MarkedAsGone
   | RequiresImport t => outcome (bind m k) = RequiresImport t
   | Panics p => outcome (bind m k) = Panics p
   end).
Proof.
  destruct m as [[a|e| |t|p] l]; cbn.
  - left. exists a. split; [done|]. apply bind_ok.
  - right. by split.
  - right. by split.
  - right. by split.
  - right. by split.
Qed.

Lemma bind_Ok_inv m k b :
  outcome (bind m k) = Ok b →
  ∃ a, outcome m = Ok a ∧ outcome (k a) = Ok b ∧
       events (bind m k) = events m ++ events (k a).
Proof.
  destruct (bind_cases m k) as [(a & Ha & ->)|(_ & _ & Hr)].
  - rewrite outcome_seq. intros Hb. exists a. by rewrite events_seq.
  - intros Hb. rewrite Hb in Hr. by destruct (outcome m).
Qed.

Lemma calls_bind_subseteq m k c :
  c ∈ calls (bind m k) → c ∈ calls m ∨ ∃ a, outcome m = Ok a ∧ c ∈ calls (k a).
Proof.
  destruct (bind_cases m k) as [(a & Ha & ->)|(_ & He & _)].
  - rewrite calls_seq. intros [?|?]%elem_of_app; [by left|right; eauto].
  - unfold calls. rewrite He. by left.
Qed.

Lemma calls_bind_l m k c : c ∈ calls m → c ∈ calls (bind m k).
Proof.
  destruct (bind_cases m k) as [(a & Ha & ->)|(_ & He & _)].
  - rewrite calls_seq. intros ?. apply elem_of_app. by left.
  - unfold calls. by rewrite He.
Qed.

Lemma issues_bind S m k :
  issues S m → (∀ a, issues S (k a)) → issues S (bind m k).
Proof.
  intros Hm Hk c [?|(a & _ & ?)]%calls_bind_subseteq; [by apply Hm|by apply (Hk a)].
Qed.

Lemma faithful_bind T m k :
  faithful T m → (∀ a, faithful T (k a)) → faithful T (bind m k).
Proof.
  intros Hm Hk pre c e post.
  destruct (bind_cases m k) as [(a & Ha & ->)|(_ & He & Hr)].
  - rewrite events_seq, outcome_seq.
    intros [(l & E1 & E2)|(l & E1 & E2)]%app_eq_inv.
    + destruct l as [|x l]; cbn in E2.
      * apply (Hk a [] c e post). by rewrite <- E2.
      * injection E2 as <- ->.
        destruct (Hm pre c e l E1) as [?|[_ Hret]]; [by left|].
        rewrite Ha in Hret. by destruct Hret as [?|[[? ?]|?]].
    + by apply (Hk a l c e post).
  - rewrite He. intros E. destruct (Hm pre c e post E) as [?|[-> Hret]]; [by left|].
    right. split; [done|]. unfold returned in *.
    destruct (outcome m); try done.
    + rewrite Hr. destruct Hret as [?|[[f ?]|?]]; [left|right; left; exists f|right; right];
        congruence.
    + rewrite Hr. by right; right.
    + by destruct Hret as [?|[[? ?]|?]].
    + by destruct Hret as [?|[[? ?]|?]].
Qed.

End Monad.

(** *** The primitives: calls issued *)
Section Issues.
Context {A : Type} (S : call → Prop).

Lemma issues_nil (r : result A) : issues S (r, []).
Proof. intros c Hc. unfold calls in Hc. cbn in Hc. by apply elem_of_nil in Hc. Qed.

Lemma issues_ret (a : A) : issues S (ret a).
Proof. apply issues_nil. Qed.

Lemma issues_fail e : issues S (@fail A e).
Proof. apply issues_nil. Qed.

Lemma issues_throw p : issues S (@throw A p).
Proof. apply issues_nil. Qed.

Lemma issues_deref (p : option A) : issues S (deref p).
Proof. destruct p; apply issues_nil. Qed.

Lemma issues_index0 (l : list A) : issues S (index0 l).
Proof. destruct l; apply issues_nil. Qed.

Lemma issues_invoke c (r : A * option error) : S c → issues S (invoke c r).
Proof. intros Hc c' Hin. unfold calls in Hin. cbn in Hin. by apply list_elem_of_singleton in Hin as ->. Qed.

Lemma issues_try c (r : A * option error) format : S c → issues S (try c r format).
Proof.
  intros Hc. unfold try. apply issues_bind; [by apply issues_invoke|].
  intros [v [e|]]; apply issues_nil.
Qed.

Lemma issues_try_bare c (r : A * option error) : S c → issues S (try_bare c r).
Proof.
  intros Hc. unfold try_bare. apply issues_bind; [by apply issues_invoke|].
  intros [v [e|]]; apply issues_nil.
Qed.

End Issues.

Lemma issues_mapassign S m k v : issues S (mapassign m k v).
Proof. destruct m; apply issues_nil. Qed.

Lemma issues_weaken {A} (S S' : call → Prop) (m : M A) :
  (∀ c, S c → S' c) → issues S m → issues S' m.
Proof. intros HS Hm c Hc. by apply HS, Hm. Qed.

(** Structural descent through a computation for [issues]. *)
Ltac issues_step :=
  lazymatch goal with
  | |- issues _ (bind _ _) => apply issues_bind; [|intros]
  | |- issues _ (ret _) => apply issues_ret
  | |- issues _ (fail _) => apply issues_fail
  | |- issues _ (throw _) => apply issues_throw
  | |- issues _ (deref _) => apply issues_deref
  | |- issues _ (index0 _) => apply issues_index0
  | |- issues _ (mapassign _ _ _) => apply issues_mapassign
  | |- issues _ (invoke _ _) => apply issues_invoke
  | |- issues _ (try _ _ _) => apply issues_try
  | |- issues _ (try_bare _ _) => apply issues_try_bare
  | |- issues _ (_, []) => apply issues_nil
  | |- issues _ (match ?x with _ => _ end) => destruct x eqn:?
  end.

Ltac issues_auto := repeat issues_step.

(** *** Completed computations *)
Lemma outcome_bind_ok {A B} (m : M A) (k : A → M B) a :
  outcome m = Ok a → outcome (bind m k) = outcome (k a).
Proof.
  intros Ha. destruct (bind_cases m k) as [(a' & Ha' & ->)|(Hn & _)].
  - rewrite outcome_seq. congruence.
  - by destruct (Hn a).
Qed.

Lemma calls_bind_ok {A B} (m : M A) (k : A → M B) a :
  outcome m = Ok a → calls (bind m k) = calls m ++ calls (k a).
Proof.
  intros Ha. destruct (bind_cases m k) as [(a' & Ha' & ->)|(Hn & _)].
  - rewrite calls_seq. unfold calls at 2. congruence.
  - by destruct (Hn a).
Qed.

Lemma try_Ok_inv {A} c (r : A * option error) format v :
  outcome (try c r format) = Ok v → r = (v, None) ∧ calls (try c r format) = [c].
Proof. destruct r as [v' [e|]]; cbn; [done|]. by intros [= ->]. Qed.

Lemma try_bare_Ok_inv {A} c (r : A * option error) v :
  outcome (try_bare c r) = Ok v → r = (v, None) ∧ calls (try_bare c r) = [c].
Proof. destruct r as [v' [e|]]; cbn; [done|]. by intros [= ->]. Qed.

(** From [H : outcome (bind m k) = Ok b]: the first computation completed,
    and [H] now speaks of the continuation. *)
Ltac ok_inv H a Ha :=
  lazymatch type of H with
  | outcome (bind ?m ?k) = Ok ?b =>
      let E := fresh "E" in
      apply bind_Ok_inv in H as (a & Ha & H & E); clear E; cbn beta in H
  end.

(** The same, moving a goal [c ∈ calls (bind m k)] to the continuation. *)
Ltac ok_descend H a Ha :=
  lazymatch type of H with
  | outcome (bind ?m ?k) = Ok ?b =>
      let E := fresh "E" in
      apply bind_Ok_inv in H as (a & Ha & H & E); clear E;
      rewrite (calls_bind_ok m k a Ha); cbn beta in H |- *
  end.

(** *** Following one path through a computation *)
Lemma bind_try_None {A B} c (v : A) format (k : A → M B) :
  bind (try c (v, None) format) k = seq [Ev c None] (k v).
Proof. unfold try, invoke. cbn. by destruct (k v). Qed.

Lemma bind_try_Some {A B} c (v : A) e format (k : A → M B) :
  bind (try c (v, Some e) format) k =
    (Err (Errorf format (Some e)), [Ev c (Some e)]).
Proof. done. Qed.

Lemma bind_try_bare_None {A B} c (v : A) (k : A → M B) :
  bind (try_bare c (v, None)) k = seq [Ev c None] (k v).
Proof. unfold try_bare, invoke. cbn. by destruct (k v). Qed.

Lemma bind_try_bare_Some {A B} c (v : A) e (k : A → M B) :
  bind (try_bare c (v, Some e)) k = (Err e, [Ev c (Some e)]).
Proof. done. Qed.

Lemma bind_invoke {A B} c (r : A * option error) (k : A * option error → M B) :
  bind (invoke c r) k = seq [Ev c r.2] (k r).
Proof. unfold invoke. cbn. by destruct (k r). Qed.

Lemma bind_assoc {A B C} (m : M A) (k : A → M B) (k' : B → M C) :
  bind (bind m k) k' = bind m (λ a, bind (k a) k').
Proof.
  destruct m as [[a|e| |t|p] l]; try done.
  rewrite !bind_ok. apply bind_seq.
Qed.

(** [H : c ∈ l] for an explicit list [l] of other calls. *)
Ltac absent H :=
  cbn in H;
  repeat (apply elem_of_cons in H as [H|H]; [discriminate H|]);
  by apply elem_of_nil in H.

(** One step along a path, for a goal [c ∈ calls m → _ (outcome m)]: the
    next callee is split into its answers, an answer that ends the
    computation before [c] is discarded. *)
Ltac path_step :=
  lazymatch goal with
  | |- _ ∈ calls (seq _ _) → _ =>
      let Hc := fresh "Hc" in
      rewrite calls_seq, ?outcome_seq;
      intros [Hc|Hc]%elem_of_app; [absent Hc|];
      try (apply elem_of_app; right);
      revert Hc
  | |- _ ∈ calls (_, _) → _ =>
      let Hc := fresh "Hc" in intros Hc; absent Hc
  | |- _ ∈ calls (bind (bind _ _) _) → _ => rewrite bind_assoc
  | |- _ ∈ calls (bind (invoke _ (_, _)) _) → _ => rewrite bind_invoke; cbn beta iota
  | |- _ ∈ calls (bind (invoke _ ?r) _) → _ => destruct r as [? ?] eqn:?
  | |- _ ∈ calls (bind (ret _) _) → _ => rewrite bind_ret; cbn beta
  | |- _ ∈ calls (bind (fail _) _) → _ => rewrite bind_fail
  | |- _ ∈ calls (bind (throw _) _) → _ => rewrite bind_throw
  | |- _ ∈ calls (fail _) → _ => let Hc := fresh "Hc" in intros Hc; absent Hc
  | |- _ ∈ calls (throw _) → _ => let Hc := fresh "Hc" in intros Hc; absent Hc
  | |- _ ∈ calls (bind (try _ (_, None) _) _) → _ => rewrite bind_try_None; cbn beta
  | |- _ ∈ calls (bind (try _ (_, Some _) _) _) → _ => rewrite bind_try_Some
  | |- _ ∈ calls (bind (try _ (_, ?o) _) _) → _ => destruct o eqn:?
  | |- _ ∈ calls (bind (try _ ?r _) _) → _ => destruct r as [? ?] eqn:?
  | |- _ ∈ calls (bind (try_bare _ (_, None)) _) → _ =>
      rewrite bind_try_bare_None; cbn beta
  | |- _ ∈ calls (bind (try_bare _ (_, Some _)) _) → _ => rewrite bind_try_bare_Some
  | |- _ ∈ calls (bind (try_bare _ (_, ?o)) _) → _ => destruct o eqn:?
  | |- _ ∈ calls (bind (try_bare _ ?r) _) → _ => destruct r as [? ?] eqn:?
  | |- _ ∈ calls (bind (deref ?p) _) → _ => destruct p eqn:?; unfold deref
  | |- _ ∈ calls (bind (index0 ?l) _) → _ => destruct l eqn:?; unfold index0
  | |- _ ∈ calls (bind (match ?x with _ => _ end) _) → _ => destruct x eqn:?
  end.

(** *** The primitives: errors returned *)
Section Faithful.
Context {A : Type} (T : event → Prop).

Lemma faithful_nil (m : M A) : events m = [] → faithful T m.
Proof. intros E pre c e post. rewrite E. by destruct pre. Qed.

Lemma faithful_ret (a : A) : faithful T (ret a).
Proof. by apply faithful_nil. Qed.

Lemma faithful_fail e : faithful T (@fail A e).
Proof. by apply faithful_nil. Qed.

Lemma faithful_throw p : faithful T (@throw A p).
Proof. by apply faithful_nil. Qed.

Lemma faithful_deref (p : option A) : faithful T (deref p).
Proof. apply faithful_nil. by destruct p. Qed.

Lemma faithful_index0 (l : list A) : faithful T (index0 l).
Proof. apply faithful_nil. by destruct l. Qed.

(** One event: its error, if any, is tolerated or returned. *)
Lemma faithful_single (m : M A) c err :
  events m = [Ev c err] →
  (∀ e, err = Some e → T (Ev c (Some e)) ∨ returned e (outcome m)) →
  faithful T m.
Proof.
  intros E Hr pre c' e post. rewrite E.
  destruct pre as [|x [|y pre]]; cbn; intros [= ? ?]; subst.
  destruct (Hr e eq_refl); auto.
Qed.

Lemma faithful_try c (r : A * option error) format : faithful T (try c r format).
Proof.
  destruct r as [v [e|]]; apply faithful_single with c (Some e) || apply faithful_single with c None;
    try done.
  intros e' [= <-]. right. right. left. by eexists.
Qed.

Lemma faithful_try_bare c (r : A * option error) : faithful T (try_bare c r).
Proof.
  destruct r as [v [e|]]; apply faithful_single with c (Some e) || apply faithful_single with c None;
    try done.
  intros e' [= <-]. right. by left.
Qed.

(** A callee whose error is looked at by the continuation. *)
Lemma faithful_invoke_bind {B} c (r : B * option error) (k : B * option error → M A) :
  faithful T (k r) →
  (∀ e, r.2 = Some e →
        T (Ev c (Some e)) ∨ (events (k r) = [] ∧ returned e (outcome (k r)))) →
  faithful T (bind (invoke c r) k).
Proof.
  intros Hk Hr pre c' e post. rewrite bind_invoke, events_seq, outcome_seq.
  destruct pre as [|x pre]; cbn.
  - intros [= -> He <-]. destruct (Hr e He) as [?|[-> ?]]; auto.
  - intros [= _ E]. by apply (Hk pre c' e post).
Qed.

End Faithful.

Lemma faithful_mapassign T m k v : faithful T (mapassign m k v).
Proof. apply faithful_nil. by destruct m. Qed.

(** Structural descent through a computation for [faithful]; a callee
    whose error the continuation looks at is left to the caller. *)
Ltac faithful_step :=
  lazymatch goal with
  | |- faithful _ (bind (invoke _ _) _) => fail
  | |- faithful _ (bind _ _) => apply faithful_bind; [|intros]
  | |- faithful _ (ret _) => apply faithful_ret
  | |- faithful _ (fail _) => apply faithful_fail
  | |- faithful _ (throw _) => apply faithful_throw
  | |- faithful _ (deref _) => apply faithful_deref
  | |- faithful _ (index0 _) => apply faithful_index0
  | |- faithful _ (mapassign _ _ _) => apply faithful_mapassign
  | |- faithful _ (try _ _ _) => apply faithful_try
  | |- faithful _ (try_bare _ _) => apply faithful_try_bare
  | |- faithful _ (_, []) => by apply faithful_nil
  | |- faithful _ (match ?x with _ => _ end) => destruct x eqn:?
  end.

Ltac faithful_auto := repeat faithful_step.

(** The continuation of a tolerated callee. *)
Ltac faithful_tolerated :=
  apply faithful_invoke_bind;
  [|intros ? ?; left;
    unfold Create_tolerates, Read_tolerates, Update_tolerates; cbn; auto].

(** ** Properties of the operations, for every implementation of the
    imported packages *)
Section Properties.
Context {F : Foreign} {Hh : Helpers F}.

(** *** Update: the dependent calls *)

(** A dependent call is only issued under its change flag. *)
Lemma Update_issues_flagged (w : UpdateWorld) :
  issues (λ c, ∀ flag, change_flag c = Some flag → HasChange (upd_ResourceData w) flag = true)
    (Update w).
Proof.
  unfold Update, Update_fetch, Update_changes, Update_appSettings, Update_primary,
    Update_connection_string, Update_auth_settings, Update_backup,
    Update_app_service_logs, update_SiteProperties, update_existing_SiteConfig.
  issues_auto.
  all: try (intros flag [=]; subst; done).
Qed.

(** A completed Update is the succession of its eight parts. *)
Lemma Update_Ok_calls (w : UpdateWorld) :
  outcome (Update w) = Ok () →
  ∃ f existing x,
    let state := f_state f in
    outcome (Update_primary w state existing x) = Ok () ∧
    outcome (Update_connection_string w state) = Ok () ∧
    outcome (Update_auth_settings w state) = Ok () ∧
    outcome (Update_backup w state) = Ok () ∧
    outcome (Update_app_service_logs w state) = Ok () ∧
    ∃ before,
      calls (Update w) =
        before ++ calls (Update_primary w state existing x)
               ++ calls (Update_connection_string w state)
               ++ calls (Update_auth_settings w state)
               ++ calls (Update_backup w state)
               ++ calls (Update_app_service_logs w state).
Proof.
  unfold Update. intros H.
  ok_descend H f Hf. ok_descend H existing He. ok_descend H x Hx.
  ok_descend H u1 H1. ok_descend H u2 H2. ok_descend H u3 H3. ok_descend H u4 H4.
  destruct u1, u2, u3, u4.
  exists f, existing, x. cbn zeta. do 5 (split; [assumption|]).
  rewrite 2!(assoc_L (++)). eexists. reflexivity.
Qed.

Lemma Update_primary_Ok (w : UpdateWorld) state existing x :
  outcome (Update_primary w state existing x) = Ok () →
  UpdateConfigurationSlot ∈ calls (Update_primary w state existing x).
Proof.
  unfold Update_primary. intros H.
  ok_descend H a1 H1. ok_descend H a2 H2. ok_descend H a3 H3. ok_descend H a4 H4.
  ok_descend H a5 H5. ok_descend H a6 H6.
  apply try_Ok_inv in H as [_ ->]. set_solver.
Qed.

Lemma Update_connection_string_Ok (w : UpdateWorld) state :
  outcome (Update_connection_string w state) = Ok () →
  HasChange (upd_ResourceData w) "connection_string" = true →
  UpdateConnectionStringsSlot ∈ calls (Update_connection_string w state).
Proof.
  unfold Update_connection_string. intros H Hc. rewrite Hc in *.
  ok_descend H a1 H1. apply try_Ok_inv in H as [_ ->]. set_solver.
Qed.

Lemma Update_auth_settings_Ok (w : UpdateWorld) state :
  outcome (Update_auth_settings w state) = Ok () →
  HasChange (upd_ResourceData w) "auth_settings" = true →
  UpdateAuthSettingsSlot ∈ calls (Update_auth_settings w state).
Proof.
  unfold Update_auth_settings. intros H Hc. rewrite Hc in *.
  ok_descend H a1 H1. apply try_Ok_inv in H as [_ ->]. set_solver.
Qed.

Lemma Update_backup_Ok (w : UpdateWorld) state :
  outcome (Update_backup w state) = Ok () →
  HasChange (upd_ResourceData w) "backup" = true →
  UpdateBackupConfigurationSlot ∈ calls (Update_backup w state) ∨
  DeleteBackupConfigurationSlot ∈ calls (Update_backup w state).
Proof.
  unfold Update_backup. intros H Hc. rewrite Hc in *.
  ok_descend H a1 H1. destruct (br_BackupRequestProperties a1).
  - apply try_Ok_inv in H as [_ ->]. left. set_solver.
  - apply try_Ok_inv in H as [_ ->]. right. set_solver.
Qed.

Lemma Update_app_service_logs_Ok (w : UpdateWorld) state :
  outcome (Update_app_service_logs w state) = Ok () →
  HasChange (upd_ResourceData w) "site_config.0.app_service_logs" = true →
  UpdateDiagnosticLogsConfigSlot ∈ calls (Update_app_service_logs w state).
Proof.
  unfold Update_app_service_logs. intros H Hc. rewrite Hc in *.
  ok_descend H a1 H1. apply try_Ok_inv in H as [_ ->]. set_solver.
Qed.

(** C1 (amended). In every Update, a connection-string, auth-settings,
    backup or app-service-logs call is issued only if the change flag of its
    field is set, and in every Update that returns without error it is
    issued if the flag is set (for [backup]: the update or the delete call).
    The site-configuration update call is under no flag: every Update that
    returns without error has issued it. When nothing but [tags] has
    changed, no backup, auth-settings or connection-string call is issued. *)
Theorem Update_dependent_calls (w : UpdateWorld) :
  ((UpdateConnectionStringsSlot ∈ calls (Update w) →
      HasChange (upd_ResourceData w) "connection_string" = true) ∧
   (UpdateAuthSettingsSlot ∈ calls (Update w) →
      HasChange (upd_ResourceData w) "auth_settings" = true) ∧
   (UpdateBackupConfigurationSlot ∈ calls (Update w) ∨
    DeleteBackupConfigurationSlot ∈ calls (Update w) →
      HasChange (upd_ResourceData w) "backup" = true) ∧
   (UpdateDiagnosticLogsConfigSlot ∈ calls (Update w) →
      HasChange (upd_ResourceData w) "site_config.0.app_service_logs" = true)) ∧
  (outcome (Update w) = Ok () →
     UpdateConfigurationSlot ∈ calls (Update w) ∧
     (HasChange (upd_ResourceData w) "connection_string" = true →
        UpdateConnectionStringsSlot ∈ calls (Update w)) ∧
     (HasChange (upd_ResourceData w) "auth_settings" = true →
        UpdateAuthSettingsSlot ∈ calls (Update w)) ∧
     (HasChange (upd_ResourceData w) "backup" = true →
        UpdateBackupConfigurationSlot ∈ calls (Update w) ∨
        DeleteBackupConfigurationSlot ∈ calls (Update w)) ∧
     (HasChange (upd_ResourceData w) "site_config.0.app_service_logs" = true →
        UpdateDiagnosticLogsConfigSlot ∈ calls (Update w))) ∧
  ((∀ flag, HasChange (upd_ResourceData w) flag = true → flag = "tags") →
     (UpdateBackupConfigurationSlot ∉ calls (Update w)) ∧
     (DeleteBackupConfigurationSlot ∉ calls (Update w)) ∧
     (UpdateAuthSettingsSlot ∉ calls (Update w)) ∧
     (UpdateConnectionStringsSlot ∉ calls (Update w))).
Proof.
  pose proof (Update_issues_flagged w) as G.
  assert (∀ c flag, c ∈ calls (Update w) → change_flag c = Some flag →
                    HasChange (upd_ResourceData w) flag = true) as G'
    by (intros c flag Hc Hg; by apply (G c)).
  split; [|split].
  - repeat split.
    + intros Hc. by apply (G' _ _ Hc).
    + intros Hc. by apply (G' _ _ Hc).
    + intros [Hc|Hc]; by apply (G' _ _ Hc).
    + intros Hc. by apply (G' _ _ Hc).
  - intros Hok.
    destruct (Update_Ok_calls w Hok)
      as (f & existing & x & Hp & Hcs & Hau & Hb & Hl & before & ->).
    cbn zeta in *.
    pose proof (Update_primary_Ok w _ _ _ Hp).
    pose proof (Update_connection_string_Ok w _ Hcs).
    pose proof (Update_auth_settings_Ok w _ Hau).
    pose proof (Update_backup_Ok w _ Hb).
    pose proof (Update_app_service_logs_Ok w _ Hl).
    rewrite !elem_of_app. tauto.
  - intros Honly. repeat split; intros Hc.
    + by specialize (Honly _ (G' _ _ Hc eq_refl)).
    + by specialize (Honly _ (G' _ _ Hc eq_refl)).
    + by specialize (Honly _ (G' _ _ Hc eq_refl)).
    + by specialize (Honly _ (G' _ _ Hc eq_refl)).
Qed.

(** *** Create: the existence check *)

Lemma Create_plan_issues (w : CreateWorld) :
  issues (λ c, c ≠ GetSlot ∧ c ≠ CreateOrUpdateSlot) (Create_plan w).
Proof. unfold Create_plan. issues_auto; done. Qed.

Lemma Create_existing_found (w : CreateWorld) existing err :
  c_GetSlot w = (existing, err) →
  ResponseWasNotFound (site_Response existing) = false →
  Create_existing w =
    (match err with
     | None => RequiresImport ResourceType
     | Some e =>
         Err (Errorf "checking for presence of existing Linux %s: %+v" (Some e))
     end, [Ev GetSlot err]).
Proof.
  intros Hg Hnf. unfold Create_existing. rewrite Hg. cbn. rewrite Hnf.
  by destruct err.
Qed.

(** C2. In every Create that performs the existence check: if the GET of the
    slot is answered without error and not with not-found (a slot is
    present at the target identifier), Create returns the
    resource-requires-import error; and whenever the answer is not
    not-found, no create call is issued. *)
Theorem Create_existing_requires_import (w : CreateWorld) :
  GetSlot ∈ calls (Create w) →
  ResponseWasNotFound (site_Response (c_GetSlot w).1) = false →
  ((c_GetSlot w).2 = None → outcome (Create w) = RequiresImport ResourceType) ∧
  CreateOrUpdateSlot ∉ calls (Create w).
Proof.
  intros Hcall Hnf. unfold Create in *.
  pose proof (Create_plan_issues w) as Hplan.
  destruct (bind_cases (Create_plan w)
              (λ p, Create_existing w;; Create_availability w p;;
                    let* functionAppSlot := Create_site w p in
                    Create_dependents w functionAppSlot))
    as [(p & Hp & E)|(_ & E & _)].
  - rewrite E. destruct (c_GetSlot w) as [existing err] eqn:Hg. cbn in Hnf.
    rewrite (Create_existing_found w existing err Hg Hnf).
    split.
    + cbn. intros ->. by destruct (Create_site w p).
    + rewrite calls_seq. intros [Hc|Hc]%elem_of_app.
      * by destruct (Hplan _ Hc).
      * destruct err; cbn in Hc; by apply list_elem_of_singleton in Hc.
  - unfold calls in Hcall. rewrite E in Hcall. by destruct (Hplan _ Hcall).
Qed.

(** *** Read: the primary resource *)

Lemma unpack_step_issues rd u kv :
  issues (λ c, c = Atoi) (unpack_step rd u kv).
Proof.
  unfold unpack_step, update_SiteConfig0. destruct kv as [k v].
  issues_auto; done.
Qed.

Lemma range_issues rd entries u :
  issues (λ c, c = Atoi) (range rd u entries).
Proof.
  revert u. induction entries as [|kv rest IH]; intros u; cbn [range].
  - apply issues_ret.
  - apply issues_bind; [apply unpack_step_issues|done].
Qed.

Lemma unpack_issues m input rd :
  issues (λ c, c = Atoi ∨ c = DecodeFunctionAppDockerFxString)
    (unpackLinuxFunctionAppSettings m input rd).
Proof.
  unfold unpackLinuxFunctionAppSettings, update_SiteConfig0.
  destruct (sd_Properties input) as [entries|]; [|apply issues_ret].
  apply issues_bind.
  - eapply issues_weaken; [|apply range_issues]. by left.
  - intros u. issues_auto; by right.
Qed.

(** After the primary fetch, Read does not fetch the slot again. *)
Lemma Read_state_issues (w : ReadWorld) id functionApp :
  issues (λ c, c ≠ GetSlot ∧ c ≠ ParseFunctionAppSlotID) (Read_state w id functionApp).
Proof.
  unfold Read_state, Read_backup, update_SiteConfig0.
  repeat first
    [ apply issues_bind; [|intros]
    | eapply issues_weaken; [|apply unpack_issues]; cbn beta; intros ? [->| ->]; done
    | issues_step ].
  all: done.
Qed.

Lemma Read_primary_calls (w : ReadWorld) c :
  c = GetSlot ∨ c = ParseFunctionAppSlotID →
  c ∈ calls (Read w) → c ∈ calls (Read_primary w).
Proof.
  unfold Read. intros Hg Hc.
  apply calls_bind_subseteq in Hc as [Hc|([id functionApp] & Ha & Hc)]; [done|].
  apply Read_state_issues in Hc. destruct Hc, Hg; done.
Qed.

Lemma Read_primary_failed (w : ReadWorld) functionApp e :
  GetSlot ∈ calls (Read_primary w) →
  r_GetSlot w = (functionApp, Some e) →
  outcome (Read_primary w) =
    if ResponseWasNotFound (site_Response functionApp)
    then MarkedAsGone
    else Err (Errorf "reading Linux %s: %+v" (Some e)).
Proof.
  unfold Read_primary. intros Hc Hg. rewrite Hg in *.
  destruct (parse_FunctionAppSlotID (Id (r_ResourceData w))) as [[id|] [pe|]];
    cbn in *; try by apply list_elem_of_singleton in Hc.
  by destruct (ResponseWasNotFound (site_Response functionApp)).
Qed.

(** C6. In every Read that fetches the primary slot: if the fetch fails with
    not-found, Read returns the mark-as-gone signal; if it fails otherwise,
    Read returns the error wrapped. *)
Theorem Read_primary_not_found (w : ReadWorld) e :
  GetSlot ∈ calls (Read w) →
  (r_GetSlot w).2 = Some e →
  (ResponseWasNotFound (site_Response (r_GetSlot w).1) = true →
     outcome (Read w) = MarkedAsGone) ∧
  (ResponseWasNotFound (site_Response (r_GetSlot w).1) = false →
     outcome (Read w) = Err (Errorf "reading Linux %s: %+v" (Some e))).
Proof.
  intros Hc He. destruct (r_GetSlot w) as [functionApp err] eqn:Hg.
  cbn in He. subst err.
  apply (Read_primary_calls w) in Hc; [|by left].
  pose proof (Read_primary_failed w functionApp e Hc Hg) as Hp.
  cbn [fst]. unfold Read.
  destruct (bind_cases (Read_primary w)
              (λ '(id, functionApp), Read_state w id functionApp))
    as [(a & Ha & _)|(_ & _ & Hr)].
  - rewrite Ha in Hp. by destruct (ResponseWasNotFound (site_Response functionApp)).
  - rewrite Hp in Hr. split; intros Hnf; by rewrite Hnf in Hr.
Qed.

(** *** Read: the dependent fetches *)

Lemma Read_primary_issues (w : ReadWorld) :
  issues (λ c, c = ParseFunctionAppSlotID ∨ c = GetSlot) (Read_primary w).
Proof. unfold Read_primary. issues_auto; auto. Qed.

(** A call of the dependent part of Read seen in Read: the primary fetch
    succeeded. *)
Lemma Read_state_calls (w : ReadWorld) c :
  c ≠ ParseFunctionAppSlotID → c ≠ GetSlot →
  c ∈ calls (Read w) →
  ∃ id functionApp,
    outcome (Read w) = outcome (Read_state w id functionApp) ∧
    c ∈ calls (Read_state w id functionApp) ∧
    ∀ c', c' ∈ calls (Read_state w id functionApp) → c' ∈ calls (Read w).
Proof.
  intros N1 N2. unfold Read.
  destruct (bind_cases (Read_primary w)
              (λ '(id, functionApp), Read_state w id functionApp))
    as [([id functionApp] & Ha & ->)|(_ & E & _)].
  - rewrite calls_seq, outcome_seq. intros [Hc|Hc]%elem_of_app.
    + apply Read_primary_issues in Hc as [?|?]; done.
    + exists id, functionApp. repeat split; [done|].
      intros c' Hc'. rewrite elem_of_app. by right.
  - unfold calls. rewrite E. intros Hc.
    apply (Read_primary_issues w) in Hc as [?|?]; done.
Qed.

Lemma Read_state_auth_failed (w : ReadWorld) id functionApp e :
  (r_GetAuthSettingsSlot w).2 = Some e →
  GetAuthSettingsSlot ∈ calls (Read_state w id functionApp) →
  outcome (Read_state w id functionApp) =
    Err (Errorf "reading Auth Settings for Linux %s: %+v" (Some e)).
Proof.
  intros He. destruct (r_GetAuthSettingsSlot w) as [auth err] eqn:Ha.
  cbn in He. subst err. unfold Read_state. rewrite Ha.
  repeat path_step. all: done.
Qed.

Lemma Read_state_logs_failed (w : ReadWorld) id functionApp e :
  (r_GetDiagnosticLogsConfigurationSlot w).2 = Some e →
  GetDiagnosticLogsConfigurationSlot ∈ calls (Read_state w id functionApp) →
  outcome (Read_state w id functionApp) =
    Err (Errorf "reading logs configuration for Linux %s: %+v" (Some e)).
Proof.
  intros He. destruct (r_GetDiagnosticLogsConfigurationSlot w) as [logs err] eqn:Ha.
  cbn in He. subst err. unfold Read_state, Read_backup. rewrite Ha.
  repeat path_step. all: done.
Qed.

Lemma Read_backup_not_found (w : ReadWorld) :
  ResponseWasNotFound (br_Response (r_GetBackupConfigurationSlot w).1) = true →
  Read_backup w =
    (Ok (r_GetBackupConfigurationSlot w).1,
     [Ev GetBackupConfigurationSlot (r_GetBackupConfigurationSlot w).2]).
Proof.
  unfold Read_backup. destruct (r_GetBackupConfigurationSlot w) as [backup [e|]];
    cbn; [|done]. by intros ->.
Qed.

Lemma Read_backup_Ok_inv (w : ReadWorld) backup :
  outcome (Read_backup w) = Ok backup → backup = (r_GetBackupConfigurationSlot w).1.
Proof.
  unfold Read_backup. destruct (r_GetBackupConfigurationSlot w) as [b [e|]]; cbn.
  - destruct (ResponseWasNotFound (br_Response b)); cbn; congruence.
  - congruence.
Qed.

Lemma Read_state_backup_not_found (w : ReadWorld) id functionApp :
  ResponseWasNotFound (br_Response (r_GetBackupConfigurationSlot w).1) = true →
  GetBackupConfigurationSlot ∈ calls (Read_state w id functionApp) →
  GetDiagnosticLogsConfigurationSlot ∈ calls (Read_state w id functionApp).
Proof.
  intros Hnf. unfold Read_state.
  repeat lazymatch goal with
         | |- _ ∈ calls (bind (Read_backup _) _) → _ => fail
         | _ => path_step
         end.
  rewrite (Read_backup_not_found w Hnf), bind_ok, calls_seq. intros _.
  apply elem_of_app. right.
  apply calls_bind_l.
  destruct (r_GetDiagnosticLogsConfigurationSlot w) as [logs [e|]];
    cbn; apply list_elem_of_singleton; done.
Qed.

Lemma update_SiteConfig0_Ok_inv f (m m' : LinuxFunctionAppSlotModel) :
  outcome (update_SiteConfig0 f m) = Ok m' →
  ∃ c r, SiteConfig m = c :: r ∧ m' = with_SiteConfig (f c :: r) m.
Proof.
  unfold update_SiteConfig0. destruct (SiteConfig m) as [|c r]; cbn; [done|].
  intros [= <-]. by exists c, r.
Qed.

Lemma Read_state_Ok_Backup (w : ReadWorld) id functionApp state :
  outcome (Read_state w id functionApp) = Ok state →
  Backup state = FlattenBackupConfig (r_GetBackupConfigurationSlot w).1.
Proof.
  unfold Read_state. intros H.
  ok_inv H props Hprops. ok_inv H appSettingsResp H1. ok_inv H connectionStrings H2.
  ok_inv H u3 H3. ok_inv H u4 H4. ok_inv H siteCredentials H5. ok_inv H auth H6.
  ok_inv H backup H7. ok_inv H logs H8. cbn zeta in H.
  ok_inv H configResp H9. ok_inv H siteConfigp H10. ok_inv H siteConfig H11.
  ok_inv H state1 H12. ok_inv H state2 H13. ok_inv H u14 H14. ok_inv H ident H15.
  ok_inv H u16 H16. cbn in H. injection H as <-.
  apply Read_backup_Ok_inv in H7 as ->.
  apply update_SiteConfig0_Ok_inv in H13 as (c & r & _ & ->). done.
Qed.

(** C5 (amended). In every Read, a not-found answer to the fetch of the
    backup configuration is treated as absent configuration: Read goes on to
    the next fetch, and when it returns without error the backup sub-state
    is the flattening of that answer. The other dependent fetches are not
    treated so: when the fetch of the auth settings or of the diagnostic
    logs fails, not-found included, Read returns that error wrapped. *)
Theorem Read_dependent_not_found (w : ReadWorld) :
  (GetBackupConfigurationSlot ∈ calls (Read w) →
   ResponseWasNotFound (br_Response (r_GetBackupConfigurationSlot w).1) = true →
     GetDiagnosticLogsConfigurationSlot ∈ calls (Read w) ∧
     ∀ state, outcome (Read w) = Ok state →
              Backup state = FlattenBackupConfig (r_GetBackupConfigurationSlot w).1) ∧
  (∀ e, GetAuthSettingsSlot ∈ calls (Read w) →
        (r_GetAuthSettingsSlot w).2 = Some e →
          outcome (Read w) =
            Err (Errorf "reading Auth Settings for Linux %s: %+v" (Some e))) ∧
  (∀ e, GetDiagnosticLogsConfigurationSlot ∈ calls (Read w) →
        (r_GetDiagnosticLogsConfigurationSlot w).2 = Some e →
          outcome (Read w) =
            Err (Errorf "reading logs configuration for Linux %s: %+v" (Some e))).
Proof.
  split; [|split].
  - intros Hc Hnf.
    apply Read_state_calls in Hc as (id & functionApp & Ho & Hc & Hsub); [|done..].
    split.
    + by apply Hsub, Read_state_backup_not_found.
    + intros state. rewrite Ho. apply Read_state_Ok_Backup.
  - intros e Hc He.
    apply Read_state_calls in Hc as (id & functionApp & -> & Hc & _); [|done..].
    by apply Read_state_auth_failed.
  - intros e Hc He.
    apply Read_state_calls in Hc as (id & functionApp & -> & Hc & _); [|done..].
    by apply Read_state_logs_failed.
Qed.

(** *** Create: the synthesized app settings *)

Lemma make_if_nil_Some m : ∃ g, make_if_nil m = Some g ∧ ∀ k, g !! k = entry m k.
Proof. destruct m as [g|]; [by exists g|]. exists ∅. split; [done|]. intros k. apply lookup_empty. Qed.


(** *** Create: the plan tier *)

Lemma sendContentSettings_for_dynamic tier forceDisable :
  ToLower tier = "dynamic" → sendContentSettings_for tier forceDisable = false.
Proof. unfold sendContentSettings_for. by intros ->. Qed.

Lemma Create_plan_Ok_inv (w : CreateWorld) p :
  outcome (Create_plan w) = Ok p →
  pl_servicePlan p = (c_ServicePlanGet w).1 ∧
  pl_functionAppSlot p = (c_Decode w).1 ∧
  ∃ tier, plan_SkuTier (pl_servicePlan p) = Some (Some tier) ∧
          pl_sendContentSettings p =
            sendContentSettings_for tier (ForceDisableContentShare (pl_functionAppSlot p)).
Proof.
  unfold Create_plan. intros H.
  ok_inv H functionAppSlot H1. ok_inv H functionAppIdp H2. ok_inv H functionAppId H3.
  cbn zeta in H.
  ok_inv H functionApp H4. ok_inv H location H5. ok_inv H serverFarmID H6.
  ok_inv H servicePlanIdp H7. ok_inv H servicePlanId H8. ok_inv H servicePlan H9.
  apply try_bare_Ok_inv in H1 as [-> _]. apply try_Ok_inv in H9 as [-> _].
  destruct (plan_SkuTier servicePlan) as [[tier|]|] eqn:Ht; cbn in H; try done.
  injection H as <-. cbn. repeat split. by exists tier.
Qed.

Lemma Create_appSettings_without_content
    (functionAppSlot : LinuxFunctionAppSlotModel) storageString uuid :
  ∃ appSettings,
    Create_appSettings functionAppSlot storageString false uuid = (Ok appSettings, []) ∧
    entry appSettings "WEBSITE_CONTENTSHARE"
      = entry (AppSettings functionAppSlot) "WEBSITE_CONTENTSHARE" ∧
    entry appSettings "WEBSITE_CONTENTAZUREFILECONNECTIONSTRING"
      = entry (AppSettings functionAppSlot) "WEBSITE_CONTENTAZUREFILECONNECTIONSTRING".
Proof.
  unfold Create_appSettings.
  destruct (BuiltinLogging functionAppSlot); [|by eexists].
  destruct (make_if_nil_Some (AppSettings functionAppSlot)) as (g0 & -> & Hg0).
  destruct (StorageUsesMSI functionAppSlot); cbn; eexists; (split; [reflexivity|]);
    cbn; rewrite !lookup_insert_ne by done; auto.
Qed.


(** *** Panics *)

(** C9. An Update whose preceding steps succeed, on an elastic plan (no
    content settings), with built-in logging on, storage through the
    managed identity and a nil [app_settings] map, writes
    [AzureWebJobsDashboard__accountName] into the nil map: Update panics
    instead of returning an error. *)
Theorem Update_nil_app_settings_panics (w : UpdateWorld) f existing props :
  outcome (Update_fetch w) = Ok f →
  outcome (Update_changes w (f_state f) (f_existing f)) = Ok existing →
  site_SiteProperties existing = Some props →
  PlanIsElastic (f_planSKU f) = true →
  BuiltinLogging (f_state f) = true →
  StorageUsesMSI (f_state f) = true →
  AppSettings (f_state f) = None →
  outcome (Update w) = Panics NilMapWrite.
Proof.
  intros Hf Hc Hprops Hel Hlog Hmsi Hnil. unfold Update.
  rewrite (outcome_bind_ok _ _ _ Hf). cbn zeta beta.
  rewrite (outcome_bind_ok _ _ _ Hc). rewrite Hel. cbn [negb].
  unfold Update_appSettings. rewrite Hnil, Hlog, Hmsi, Hprops. cbn [negb deref].
  rewrite !bind_ret, bind_invoke.
  by destruct (ExpandSiteConfigLinuxFunctionAppSlot _ _ _ _ _ _).
Qed.

(** C10. A Create that passes the existence check, on a service plan whose
    hosting environment profile carries an ID that does not parse (the
    parser hands back a nil identifier and an error), reads
    [aseId.HostingEnvironmentName] before it looks at the error: Create
    panics on the nil pointer. *)
Theorem Create_unparsable_environment_panics (w : CreateWorld) p aseID e :
  outcome (Create_plan w) = Ok p →
  outcome (Create_existing w) = Ok () →
  plan_HostingEnvironmentProfile (pl_servicePlan p) = Some (Some aseID) →
  parse_AppServiceEnvironmentID aseID = (None, Some e) →
  outcome (Create w) = Panics NilDereference.
Proof.
  intros Hp Hex Hase Hparse. unfold Create.
  rewrite (outcome_bind_ok _ _ _ Hp). cbn beta.
  rewrite (outcome_bind_ok _ _ _ Hex).
  unfold Create_availability. rewrite Hase, Hparse.
  rewrite !bind_assoc, bind_invoke. cbn beta iota. done.
Qed.

(** *** Errors of callees *)

Lemma unpack_step_faithful (w : ReadWorld) rd u kv :
  faithful (Read_tolerates w) (unpack_step rd u kv).
Proof.
  unfold unpack_step, update_SiteConfig0. destruct kv as [k v].
  destruct (switch k); faithful_auto.
  faithful_tolerated. destruct (strconv_Atoi _). faithful_auto.
Qed.

Lemma range_faithful (w : ReadWorld) rd entries u :
  faithful (Read_tolerates w) (range rd u entries).
Proof.
  revert u. induction entries as [|kv rest IH]; intros u; cbn [range].
  - apply faithful_ret.
  - apply faithful_bind; [apply unpack_step_faithful|done].
Qed.

Lemma unpack_faithful (w : ReadWorld) m input rd :
  faithful (Read_tolerates w) (unpackLinuxFunctionAppSettings m input rd).
Proof.
  unfold unpackLinuxFunctionAppSettings, update_SiteConfig0.
  destruct (sd_Properties input) as [entries|]; [|apply faithful_ret].
  apply faithful_bind; [apply range_faithful|]. intros u.
  faithful_auto.
  faithful_tolerated. destruct (helpers_DecodeFunctionAppDockerFxString _ _).
  faithful_auto.
Qed.

Lemma Read_primary_faithful (w : ReadWorld) :
  faithful (Read_tolerates w) (Read_primary w).
Proof.
  unfold Read_primary. faithful_auto.
  apply faithful_invoke_bind.
  - destruct (r_GetSlot w) as [functionApp [e|]]; faithful_auto.
  - intros e He. right. destruct (r_GetSlot w) as [functionApp err].
    cbn in He. subst err. cbn.
    destruct (ResponseWasNotFound (site_Response functionApp)); cbn.
    + split; [done|]. right; right. done.
    + split; [done|]. right; left. eexists; reflexivity.
Qed.

Lemma Read_backup_faithful (w : ReadWorld) :
  faithful (Read_tolerates w) (Read_backup w).
Proof.
  unfold Read_backup. apply faithful_invoke_bind.
  - destruct (r_GetBackupConfigurationSlot w) as [backup [e|]]; faithful_auto.
  - intros e He. unfold Read_tolerates.
    destruct (r_GetBackupConfigurationSlot w) as [backup err].
    cbn in He. subst err. cbn.
    destruct (ResponseWasNotFound (br_Response backup)) eqn:Hnf; cbn.
    + left. auto.
    + right. split; [done|]. right; left. eexists; reflexivity.
Qed.

Lemma Read_faithful (w : ReadWorld) : faithful (Read_tolerates w) (Read w).
Proof.
  unfold Read. apply faithful_bind; [apply Read_primary_faithful|].
  intros [id functionApp]. unfold Read_state, update_SiteConfig0.
  repeat first
    [ apply Read_backup_faithful
    | apply unpack_faithful
    | faithful_step ].
Qed.

Lemma Create_existing_faithful (w : CreateWorld) :
  faithful (Create_tolerates w) (Create_existing w).
Proof.
  unfold Create_existing. apply faithful_invoke_bind.
  - destruct (c_GetSlot w) as [existing [e|]]; faithful_auto.
  - intros e He. unfold Create_tolerates. destruct (c_GetSlot w) as [existing err].
    cbn in He. subst err. cbn.
    destruct (ResponseWasNotFound (site_Response existing)) eqn:Hnf; cbn.
    + left. auto.
    + right. split; [done|]. right; left. eexists; reflexivity.
Qed.

Lemma Create_availability_faithful (w : CreateWorld) p :
  faithful (Create_tolerates w) (Create_availability w p).
Proof.
  unfold Create_availability.
  repeat first
    [ faithful_step
    | faithful_tolerated;
      match goal with |- context [match ?r with (_, _) => _ end] => destruct r end ].
Qed.

Lemma Create_faithful (w : CreateWorld) : faithful (Create_tolerates w) (Create w).
Proof.
  unfold Create.
  apply faithful_bind; [unfold Create_plan; faithful_auto|]. intros p.
  apply faithful_bind; [apply Create_existing_faithful|]. intros _.
  apply faithful_bind; [apply Create_availability_faithful|]. intros _.
  unfold Create_site, Create_appSettings, Create_dependents. faithful_auto.
Qed.

Lemma Update_faithful (w : UpdateWorld) : faithful Update_tolerates (Update w).
Proof.
  unfold Update, Update_fetch, Update_changes, Update_appSettings, Update_primary,
    Update_connection_string, Update_auth_settings, Update_backup,
    Update_app_service_logs, update_SiteProperties, update_existing_SiteConfig.
  repeat first
    [ faithful_step
    | faithful_tolerated;
      match goal with |- context [match ?r with (_, _) => _ end] => destruct r end ].
Qed.

Lemma Delete_faithful (w : DeleteWorld) : faithful Delete_tolerates (Delete w).
Proof. unfold Delete. faithful_auto. Qed.

Lemma unpack_step_limit rd u v c r :
  SiteConfig (u_m u) = c :: r →
  unpack_step rd u ("WEBSITE_HEALTHCHECK_MAXPINGFAILURES", v) =
    (Ok (on_m (with_SiteConfig
                 (with_HealthCheckEvictionTime
                    (strconv_Atoi (NormalizeNilableString v)).1 c :: r)) u),
     [Ev Atoi (strconv_Atoi (NormalizeNilableString v)).2]).
Proof.
  intros Hsc. unfold unpack_step. change (switch _) with WEBSITE_HEALTHCHECK_MAXPINGFAILURES.
  cbn iota. rewrite bind_invoke. destruct (strconv_Atoi _) as [i err]. cbn beta iota.
  unfold update_SiteConfig0. rewrite Hsc. by rewrite !bind_ret.
Qed.


(** *** The flattened app settings *)

Lemma unpack_step_appSettings rd u k v u' :
  outcome (unpack_step rd u (k, v)) = Ok u' →
  u_appSettings u' =
    if kept rd k then <[k := NormalizeNilableString v]> (u_appSettings u)
    else u_appSettings u.
Proof.
  unfold unpack_step, kept, keep. intros H.
  destruct (switch k);
    repeat match type of H with
      | outcome (bind _ _) = Ok _ =>
          let a := fresh "a" in let Ha := fresh "Ha" in ok_inv H a Ha
      | outcome (match ?x with _ => _ end) = Ok _ => destruct x
      end;
    cbn in H; injection H as <-; cbn; try done;
    by destruct (GetOk rd _).
Qed.

Lemma range_appSettings rd entries u u' :
  outcome (range rd u entries) = Ok u' →
  u_appSettings u' = foldl (flatten_entry rd) (u_appSettings u) entries.
Proof.
  revert u. induction entries as [|[k v] rest IH]; intros u; cbn [range foldl].
  - by intros [= <-].
  - intros H. ok_inv H u1 H1. apply unpack_step_appSettings in H1.
    rewrite (IH _ H). unfold flatten_entry at 2. cbn. by rewrite H1.
Qed.

Lemma foldl_flatten_absent rd entries g k :
  kept rd k = false ∨ k ∉ entries.*1 →
  foldl (flatten_entry rd) g entries !! k = g !! k.
Proof.
  revert g. induction entries as [|[k' v'] rest IH]; intros g Hk; [done|].
  cbn [foldl]. rewrite IH.
  - unfold flatten_entry. cbn. destruct (kept rd k') eqn:Hk'; [|done].
    apply lookup_insert_ne. intros ->. destruct Hk as [Hk|Hk]; [congruence|].
    apply Hk. cbn. apply elem_of_cons. by left.
  - destruct Hk as [Hk|Hk]; [by left|right].
    intros Hin. apply Hk. cbn. apply elem_of_cons. by right.
Qed.

Lemma foldl_flatten_present rd entries g k v :
  NoDup entries.*1 → (k, v) ∈ entries → kept rd k = true →
  foldl (flatten_entry rd) g entries !! k = Some (NormalizeNilableString v).
Proof.
  revert g. induction entries as [|[k' v'] rest IH]; intros g Hnd Hin Hk.
  - by apply elem_of_nil in Hin.
  - cbn in Hnd. apply NoDup_cons in Hnd as [Hfresh Hnd].
    cbn [foldl]. apply elem_of_cons in Hin as [[= <- <-]|Hin].
    + rewrite foldl_flatten_absent by (by right).
      unfold flatten_entry. cbn. rewrite Hk. apply lookup_insert_eq.
    + by apply IH.
Qed.

Lemma unpack_Ok_appSettings m input rd entries m' :
  sd_Properties input = Some entries →
  outcome (unpackLinuxFunctionAppSettings m input rd) = Ok m' →
  AppSettings m' = Some (foldl (flatten_entry rd) ∅ entries).
Proof.
  unfold unpackLinuxFunctionAppSettings. intros -> H.
  ok_inv H u Hu. ok_inv H m1 Hm1. cbn in H. injection H as <-. cbn.
  by rewrite (range_appSettings _ _ _ _ Hu).
Qed.


End Properties.

(** ** Runs on explicit inputs *)
Import Demo.

(** C1, as stated, fails for the site configuration: in an Update where
    only [tags] changed and every call succeeds, the flag of [site_config]
    is not set and the site-configuration update call is issued. *)
Lemma Update_tags_only_updates_site_config :
  HasChange (upd_ResourceData Demo.tags_only_update) "site_config" = false ∧
  outcome (Update Demo.tags_only_update) = Ok () ∧
  calls (Update Demo.tags_only_update) =
    [ParseFunctionAppSlotID; Decode; GetSlot; ServicePlanInfoForApp;
     ListApplicationSettings; ExpandSiteConfig; CreateOrUpdateSlot;
     WaitForCompletionRef; UpdateConfigurationSlot].
Proof. repeat split; vm_compute; reflexivity. Qed.

Lemma Update_dependent_calls_witness :
  outcome (Update Demo.backup_update) = Ok () ∧
  HasChange (upd_ResourceData Demo.backup_update) "backup" = true ∧
  (UpdateBackupConfigurationSlot ∈ calls (Update Demo.backup_update) ∨
   DeleteBackupConfigurationSlot ∈ calls (Update Demo.backup_update)).
Proof.
  assert (outcome (Update Demo.backup_update) = Ok ()) as Hok
    by (vm_compute; reflexivity).
  assert (HasChange (upd_ResourceData Demo.backup_update) "backup" = true) as Hf
    by (vm_compute; reflexivity).
  split; [exact Hok|]. split; [exact Hf|].
  destruct (Update_dependent_calls Demo.backup_update) as (_ & H & _).
  destruct (H Hok) as (_ & _ & _ & Hb & _). exact (Hb Hf).
Defined.

(** A call in an explicit run. *)
Ltac in_run := compute_done.

Lemma Create_existing_requires_import_witness :
  outcome (Create create_on_existing) = RequiresImport ResourceType ∧
  CreateOrUpdateSlot ∉ calls (Create create_on_existing).
Proof.
  assert (GetSlot ∈ calls (Create create_on_existing)) as Hc by in_run.
  assert (ResponseWasNotFound (site_Response (c_GetSlot create_on_existing).1) = false)
    as Hnf by (vm_compute; reflexivity).
  destruct (Create_existing_requires_import create_on_existing Hc Hnf) as [H1 H2].
  split; [apply H1; reflexivity|exact H2].
Defined.



(** C5, as stated, fails for the auth settings: when their fetch answers
    not-found, Read fails with the wrapped error. *)
Lemma Read_fails_without_auth_settings :
  ResponseWasNotFound (as_Response (r_GetAuthSettingsSlot read_without_auth).1) = true ∧
  outcome (Read read_without_auth) =
    Err (Errorf "reading Auth Settings for Linux %s: %+v" (Some (http_error 404))).
Proof. split; vm_compute; reflexivity. Qed.

Lemma Read_dependent_not_found_witness :
  GetDiagnosticLogsConfigurationSlot ∈ calls (Read read_without_backup) ∧
  is_Some (value (outcome (Read read_without_backup))) ∧
  ∀ state, outcome (Read read_without_backup) = Ok state → Backup state = [].
Proof.
  assert (GetBackupConfigurationSlot ∈ calls (Read read_without_backup)) as Hc by in_run.
  assert (ResponseWasNotFound
            (br_Response (r_GetBackupConfigurationSlot read_without_backup).1) = true)
    as Hnf by (vm_compute; reflexivity).
  destruct (Read_dependent_not_found read_without_backup) as (H & _ & _).
  destruct (H Hc Hnf) as [H1 H2].
  split; [exact H1|]. split; [vm_compute; eexists; reflexivity|].
  intros state Hs. exact (H2 state Hs).
Defined.

Lemma Read_primary_not_found_witness :
  outcome (Read read_gone) = MarkedAsGone.
Proof.
  assert (GetSlot ∈ calls (Read read_gone)) as Hc by in_run.
  assert ((r_GetSlot read_gone).2 = Some (http_error 404)) as He by reflexivity.
  destruct (Read_primary_not_found read_gone (http_error 404) Hc He) as [H _].
  apply H. vm_compute. reflexivity.
Defined.





Lemma Update_nil_app_settings_panics_witness :
  outcome (Update update_nil_app_settings) = Panics NilMapWrite.
Proof.
  eapply (Update_nil_app_settings_panics update_nil_app_settings);
    vm_compute; reflexivity.
Defined.

Lemma Create_unparsable_environment_panics_witness :
  outcome (Create create_in_unparsable_environment) = Panics NilDereference.
Proof.
  eapply (Create_unparsable_environment_panics create_in_unparsable_environment);
    vm_compute; reflexivity.
Defined.
